(** * opencode-sentry: trace-context import, context-manager patch,
      span relabelling and event routing

    A shallow embedding of [src/index.ts] (function [createSentryPlugin] and
    the hooks it returns), followed by the properties stated about it. *)

From stdpp Require Import gmap strings list.
From Stdlib Require Import ZArith Ascii String.

Local Open Scope string_scope.

(** ** JavaScript values

    The plugin receives several values typed [any] / [unknown] (error
    payloads, span attributes, the [with] member of the context manager).
    Only three things are ever done with them: the truthiness test of [if],
    [||] and [&&]; the test [instanceof Error]; and the conversion
    [String(v)]. *)

Record ErrorObj := MkError { err_name : string; err_message : string }.

(** A value of any other kind (number, array, plain object, function, ...),
    described by what the two conversions applied to it return.
    [ov_string = None] stands for a conversion that throws (an object without
    a usable [toString]). *)
Record OtherVal := MkOther { ov_truthy : bool; ov_string : option string }.

Inductive JsVal :=
| JUndefined
| JNull
| JBool (b : bool)
| JStr (s : string)
| JError (e : ErrorObj)
| JOther (o : OtherVal).

Definition nonempty (s : string) : bool := negb (String.eqb s "").

(** [ToBoolean], the test behind [if (v)], [a || b] and [a && b]. *)
Definition ToBoolean (v : JsVal) : bool :=
  match v with
  | JUndefined | JNull => false
  | JBool b => b
  | JStr s => nonempty s
  | JError _ => true
  | JOther o => ov_truthy o
  end.

(** [v instanceof Error]. *)
Definition instanceofError (v : JsVal) : bool :=
  match v with JError _ => true | _ => false end.

(** [String(v)]; [None] when the conversion throws. *)
Definition String_ (v : JsVal) : option string :=
  match v with
  | JUndefined => Some "undefined"
  | JNull => Some "null"
  | JBool true => Some "true"
  | JBool false => Some "false"
  | JStr s => Some s
  | JError e =>
      Some (if nonempty (err_name e)
            then if nonempty (err_message e)
                 then err_name e ++ ": " ++ err_message e
                 else err_name e
            else err_message e)
  | JOther o => ov_string o
  end.

(** [a || b] on values. *)
Definition jsOr (a b : JsVal) : JsVal := if ToBoolean a then a else b.

(** [new Error(msg)]. *)
Definition newError (msg : string) : ErrorObj :=
  {| err_name := "Error"; err_message := msg |}.

(** An optional string as [string | undefined]. *)
Definition truthyStr (o : option string) : bool :=
  match o with Some s => nonempty s | None => false end.

(** ** Trace Context Importer ([index.ts], lines 124-136) *)

(** [s.split(sep)] for a one-character separator: the pieces between the
    occurrences of [sep], always at least one piece. *)
Fixpoint split (sep : ascii) (s : string) : list string :=
  match s with
  | EmptyString => [EmptyString]
  | String c rest =>
      if Ascii.eqb c sep then EmptyString :: split sep rest
      else match split sep rest with
           | piece :: pieces => String c piece :: pieces
           | [] => [String c EmptyString]
           end
  end.

(** [pieces.join(sep)], the inverse of [split]. *)
Fixpoint join (sep : ascii) (pieces : list string) : string :=
  match pieces with
  | [] => ""
  | [piece] => piece
  | piece :: rest => piece ++ String sep (join sep rest)
  end.

Definition hyphen : ascii := "-"%char.

(** The three [let] variables of lines 125-127 after the [if] of line 129. *)
Record TraceVars := MkTraceVars {
  parentTraceId : option string;
  parentSpanId : option string;
  sampled : bool
}.

Definition noTrace : TraceVars :=
  {| parentTraceId := None; parentSpanId := None; sampled := true |}.

Definition parseTraceparent (traceparent : option string) : TraceVars :=
  if truthyStr traceparent then
    let parts := split hyphen (default "" traceparent) in
    if Nat.eqb (List.length parts) 4 then
      {| parentTraceId := parts !! 1%nat;
         parentSpanId := parts !! 2%nat;
         sampled := match parts !! 3%nat with
                    | Some flags => String.eqb flags "01"
                    | None => false
                    end |}
    else noTrace
  else noTrace.

(** What the rest of [createSentryPlugin] sees of the import: the guard of
    line 167, [parentTraceId && parentSpanId], decides whether there is a
    trace to continue. *)
Definition importedTriple (v : TraceVars) : option (string * string * bool) :=
  match parentTraceId v, parentSpanId v with
  | Some t, Some s =>
      if nonempty t && nonempty s then Some (t, s, sampled v) else None
  | _, _ => None
  end.

Definition w3cExample : string :=
  "00-4bf92f3577b34da6a3ce929d0e0e4736-00f067aa0ba902b7-01".

Definition w3cExampleUnsampled : string :=
  "00-4bf92f3577b34da6a3ce929d0e0e4736-00f067aa0ba902b7-00".

(** ** The tracing API

    Modelled from the spec: the tracing API is the external package
    [@opentelemetry/api], none of which is part of this repository.  A
    context is an immutable record of values, one slot of which holds the
    active span; a span context carries the identifiers of a span;
    [setSpanContext] wraps a span context in a non-recording span and stores
    it in the span slot of a copy of the context; [getSpan] reads that
    slot. *)

Definition TraceFlags_NONE : Z := 0.
Definition TraceFlags_SAMPLED : Z := 1.

(** Modelled from the spec: the span context of the tracing API, the
    identifiers of one span. *)
Record SpanContext := MkSpanContext {
  traceId : string;
  spanId : string;
  traceFlags : Z;
  isRemote : bool
}.

(** Modelled from the spec: a span of the tracing API, either a wrapper
    around a span context or a span that records. *)
Inductive Span :=
| NonRecordingSpan (sc : SpanContext)
| RecordingSpan (name : string) (sc : SpanContext).

Definition spanContext (s : Span) : SpanContext :=
  match s with NonRecordingSpan sc | RecordingSpan _ sc => sc end.

(** Modelled from the spec: a context of the tracing API, immutable, with
    one slot for the active span next to its other values. *)
Record Context := MkContext {
  ctx_span : option Span;
  ctx_values : gmap string string
}.

Definition ROOT_CONTEXT : Context := {| ctx_span := None; ctx_values := ∅ |}.

(** Modelled from the spec: [trace.setSpan], a copy of the context with the
    span in the span slot. *)
Definition setSpan (c : Context) (s : Span) : Context :=
  {| ctx_span := Some s; ctx_values := ctx_values c |}.

(** Modelled from the spec: [trace.getSpan], the span of the span slot. *)
Definition getSpan (c : Context) : option Span := ctx_span c.

(** Modelled from the spec: [trace.setSpanContext], which attaches a span
    context to a context by wrapping it in a non-recording span. *)
Definition setSpanContext (c : Context) (sc : SpanContext) : Context :=
  setSpan c (NonRecordingSpan sc).

(** Modelled from the spec: [trace.getSpanContext], the span context of the
    span in the span slot. *)
Definition getSpanContext (c : Context) : option SpanContext :=
  spanContext <$> getSpan c.

(** What an operation does: it returns or it throws. *)
Inductive Thrown := TypeError.

Inductive Completion (A : Type) :=
| Returned (a : A)
| Threw (e : Thrown).
Arguments Returned {A} a.
Arguments Threw {A} e.

Abbreviation loc := positive.

Section ContextManager.

(** The ambient execution state that the context manager consults when it is
    asked for the active context (the async-local store of the runtime). *)
Context {Env : Type}.

(** The context-manager object as line 179 types it: its [active] and
    [with] members and whatever else it has.  [cm_active = None] is an object
    without a callable [active]. *)
Record ContextManager := MkContextManager {
  cm_active : option (Env -> Context);
  cm_with : JsVal;
  cm_members : gmap string JsVal
}.

(** [otel.context] seen through the cast of lines 178-181: an optional
    method [_getContextManager] (with what it returns when called) and an
    optional member [_contextManager].  Objects live in a store and are held
    by reference, so the two members may name the same manager. *)
Record OtelContext := MkOtelContext {
  _getContextManager : option (option loc);
  _contextManager : option loc;
  store : gmap loc ContextManager
}.

(** Line 182: [otelContext._getContextManager?.() || otelContext._contextManager]. *)
Definition locateContextManager (o : OtelContext) : option loc :=
  match _getContextManager o with
  | Some (Some l) => Some l
  | Some None | None => _contextManager o
  end.

(** Lines 188-191: the replacement of [active]. *)
Definition patchedActive (originalActive : Env -> Context)
    (rootContext : Context) : Env -> Context :=
  fun env =>
    let current := originalActive env in
    match getSpan current with
    | Some _ => current
    | None => rootContext
    end.

(** Lines 168-173. *)
Definition remoteParentContext (t s : string) (sampled : bool) : SpanContext :=
  {| traceId := t;
     spanId := s;
     traceFlags := if sampled then TraceFlags_SAMPLED else TraceFlags_NONE;
     isRemote := true |}.

(** Lines 184-192, for the located manager [l]; the manager object is
    updated in place.  A reference that names no object does not occur in
    the program; it is read as [undefined]. *)
Definition patchContextManager (l : loc) (rootContext : Context)
    (o : OtelContext) : Completion OtelContext :=
  match store o !! l with
  | Some cm =>
      if ToBoolean (cm_with cm) then
        match cm_active cm with
        | Some originalActive =>
            let cm' := {| cm_active := Some (patchedActive originalActive rootContext);
                          cm_with := cm_with cm;
                          cm_members := cm_members cm |} in
            Returned {| _getContextManager := _getContextManager o;
                        _contextManager := _contextManager o;
                        store := <[l := cm']> (store o) |}
        | None => Threw TypeError
        end
      else Returned o
  | None => Returned o
  end.

(** Modelled from the spec: [otel.context.active()] of line 175.  The
    tracing API answers this call through the context manager it holds, the
    one that line 182 locates, by calling that manager's [active]; with a
    manager that has no callable [active] the call throws.  [activeNow] is
    the context the call answers with when it returns: any context the
    manager's [active] may give at that moment. *)
Definition contextActive (activeNow : Context) (o : OtelContext)
    : Completion Context :=
  match locateContextManager o with
  | Some l =>
      match store o !! l with
      | Some cm =>
          match cm_active cm with
          | Some _ => Returned activeNow
          | None => Threw TypeError
          end
      | None => Returned activeNow
      end
  | None => Returned activeNow
  end.

(** Lines 167-193. *)
Definition injectTraceparent (v : TraceVars) (activeNow : Context)
    (o : OtelContext) : Completion OtelContext :=
  match importedTriple v with
  | Some (t, s, smp) =>
      let parentContext := remoteParentContext t s smp in
      match contextActive activeNow o with
      | Returned now =>
          let ctx := setSpanContext now parentContext in
          match locateContextManager o with
          | Some l => patchContextManager l ctx o
          | None => Returned o
          end
      | Threw e => Threw e
      end
  | None => Returned o
  end.

(** The root context of line 186, when there is a trace to continue. *)
Definition rootContextOf (v : TraceVars) (activeNow : Context) : option Context :=
  match importedTriple v with
  | Some (t, s, smp) => Some (setSpanContext activeNow (remoteParentContext t s smp))
  | None => None
  end.

(** What [createSentryPlugin] has done when it returns the plugin: the
    tracing API as it left it, and whether the [spanStart] handler of line
    199 is registered (it is when [Sentry.getClient()] returns a client). *)
Record Initialized := MkInitialized {
  init_otel : OtelContext;
  init_spanStart : bool
}.

(** [createSentryPlugin], lines 122-214, from the value of the environment
    variable [TRACEPARENT].  The options of [Sentry.init] do not bear on what
    follows and are left out. *)
Definition createSentryPlugin (TRACEPARENT : option string)
    (activeNow : Context) (hasClient : bool) (o : OtelContext)
    : Completion Initialized :=
  let v := parseTraceparent TRACEPARENT in
  match injectTraceparent v activeNow o with
  | Returned o' => Returned {| init_otel := o'; init_spanStart := hasClient |}
  | Threw e => Threw e
  end.

(** [contextManager.active()] as any later caller gets it from manager [l]. *)
Definition callActive (o : OtelContext) (l : loc) (env : Env) : option Context :=
  match store o !! l with
  | Some cm => (fun f => f env) <$> cm_active cm
  | None => None
  end.

End ContextManager.

Arguments ContextManager : clear implicits.
Arguments OtelContext : clear implicits.
Arguments Initialized : clear implicits.

(** ** Span relabelling ([index.ts], lines 196-214)

    Modelled from the spec: the span handed to the [spanStart] handler is an
    object of the external SDK.  It has a name, a table of attributes that
    [setAttribute] writes, and it may or may not expose that table as the
    property [attributes] (the handler reads [span.attributes || {}]). *)

(** Modelled from the spec: the SDK's span object as the handler uses it. *)
Record SpanObj := MkSpanObj {
  sp_name : option string;
  sp_table : gmap string JsVal;
  sp_exposed : bool
}.

(** Modelled from the spec: [span.setAttribute(k, v)], which writes the
    table. *)
Definition setAttribute (k : string) (v : JsVal) (span : SpanObj) : SpanObj :=
  {| sp_name := sp_name span;
     sp_table := <[k := v]> (sp_table span);
     sp_exposed := sp_exposed span |}.

(** Modelled from the spec: the property [span.attributes], [undefined] on
    a span that does not expose its table. *)
Definition attributes (span : SpanObj) : option (gmap string JsVal) :=
  if sp_exposed span then Some (sp_table span) else None.

(** [attrs[k]] *)
Definition member (attrs : gmap string JsVal) (k : string) : JsVal :=
  default JUndefined (attrs !! k).

Definition onSpanStart (span : SpanObj) : SpanObj :=
  let spanName := if truthyStr (sp_name span) then default "" (sp_name span) else "" in
  if String.eqb spanName "ai.streamText.doStream"
     || String.eqb spanName "ai.generateText.doGenerate"
  then
    let span := setAttribute "sentry.op" (JStr "gen_ai.chat") span in
    let attrs := default ∅ (attributes span) in
    let model := jsOr (member attrs "ai.model.id") (member attrs "gen_ai.request.model") in
    let provider := jsOr (member attrs "ai.model.provider") (member attrs "gen_ai.system") in
    let span := if ToBoolean model
                then setAttribute "gen_ai.request.model" model span else span in
    let span := if ToBoolean provider
                then setAttribute "gen_ai.system" provider span else span in
    span
  else span.

(** ** Event Router ([index.ts], lines 227-288)

    The handlers talk to the SDK through three calls.  The state threaded
    through them is the sequence of calls made so far, a clock in
    milliseconds, and the time the transport still needs to send what is
    buffered ([None]: it never finishes). *)

Record Breadcrumb := MkBreadcrumb {
  bc_category : string;
  bc_message : string;
  bc_level : string;
  bc_data : option (list (string * JsVal))
}.

Inductive SdkCall :=
| AddBreadcrumb (b : Breadcrumb)
| CaptureException (exn : JsVal) (tags : list (string * string))
| Flush (timeout : N).

Record Sdk := MkSdk {
  sdk_calls : list SdkCall;
  sdk_now : N;
  sdk_drain : option N
}.

Definition M (A : Type) : Type := Sdk -> Completion A * Sdk.

Definition ret {A} (a : A) : M A := fun s => (Returned a, s).

Definition bind {A B} (m : M A) (k : A -> M B) : M B :=
  fun s =>
    match m s with
    | (Returned a, s') => k a s'
    | (Threw e, s') => (Threw e, s')
    end.

Definition throw {A} (e : Thrown) : M A := fun s => (Threw e, s).

Notation "'let!' x ':=' m 'in' k" := (bind m (fun x => k))
  (at level 10, x name, m at level 100, k at level 200).

(** The SDK after one more call that takes no time. *)
Definition recorded (s : Sdk) (c : SdkCall) : Sdk :=
  {| sdk_calls := sdk_calls s ++ [c];
     sdk_now := sdk_now s;
     sdk_drain := sdk_drain s |}.

Definition record (c : SdkCall) : M unit :=
  fun s => (Returned tt, recorded s c).

Definition addBreadcrumb (b : Breadcrumb) : M unit := record (AddBreadcrumb b).

Definition captureException (exn : JsVal) (tags : list (string * string)) : M unit :=
  record (CaptureException exn tags).

(** Modelled from the spec: [Sentry.flush(timeout)] of the external SDK, the
    awaited wait included: it lasts until what is buffered is sent or
    [timeout] milliseconds have passed, whichever comes first, and yields
    whether everything was sent. *)
Definition flushWait (timeout : N) (drain : option N) : N * bool :=
  match drain with
  | Some d => if (d <=? timeout)%N then (d, true) else (timeout, false)
  | None => (timeout, false)
  end.

Definition flush (timeout : N) : M bool :=
  fun s =>
    let '(wait, sent) := flushWait timeout (sdk_drain s) in
    (Returned sent,
     {| sdk_calls := sdk_calls s ++ [Flush timeout];
        sdk_now := (sdk_now s + wait)%N;
        sdk_drain := (fun d => (d - wait)%N) <$> sdk_drain s |}).

(** [error instanceof Error ? error : new Error(String(error))] *)
Definition asException (error : JsVal) : M JsVal :=
  if instanceofError error then ret error
  else match String_ error with
       | Some msg => ret (JError (newError msg))
       | None => throw TypeError
       end.

Record Event := MkEvent {
  ev_type : string;
  ev_properties : option (gmap string JsVal)
}.

(** [obj?.k] *)
Definition optMember (obj : option (gmap string JsVal)) (k : string) : JsVal :=
  match obj with
  | Some o => member o k
  | None => JUndefined
  end.

(** The [event] hook, lines 228-262. *)
Definition onEvent (event : Event) : M unit :=
  if String.eqb (ev_type event) "session.created" then
    let sessionId := optMember (ev_properties event) "id" in
    addBreadcrumb {| bc_category := "session";
                     bc_message := "Session created";
                     bc_level := "info";
                     bc_data := Some [("sessionId", sessionId)] |}
  else if String.eqb (ev_type event) "session.error" then
    let error := optMember (ev_properties event) "error" in
    if ToBoolean error then
      let! exn := asException error in
      captureException exn [("source", "session.error")]
    else ret tt
  else if String.eqb (ev_type event) "session.idle" then
    let! _ := addBreadcrumb
                  {| bc_category := "session";
                     bc_message := "Session completed";
                     bc_level := "info";
                     bc_data := None |} in
    let! _ := flush 2000 in
    ret tt
  else ret tt.

Record ToolInput := MkToolInput { tool : string }.
Record ToolOutput := MkToolOutput { metadata : option (gmap string JsVal) }.

(** The [tool.execute.after] hook, lines 276-287. *)
Definition toolExecuteAfter (input : ToolInput) (output : ToolOutput) : M unit :=
  let error := optMember (metadata output) "error" in
  if ToBoolean error then
    let! exn := asException error in
    captureException exn [("source", "tool.execute"); ("tool", tool input)]
  else ret tt.

(** ** Sample data used to exercise the definitions *)

(** A runtime whose ambient state is the context currently entered, with one
    manager, reached through [_getContextManager]. *)
Definition someFunction : JsVal :=
  JOther {| ov_truthy := true; ov_string := Some "function () { [native code] }" |}.

Definition sampleManager : ContextManager Context :=
  {| cm_active := Some (fun env => env);
     cm_with := someFunction;
     cm_members := {[ "bind" := someFunction ]} |}.

Definition sampleOtel : OtelContext Context :=
  {| _getContextManager := Some (Some 1%positive);
     _contextManager := None;
     store := {[ 1%positive := sampleManager ]} |}.

(** The same runtime with a manager that has no [with]. *)
Definition sampleOtelNoWith : OtelContext Context :=
  {| _getContextManager := Some (Some 1%positive);
     _contextManager := None;
     store := {[ 1%positive :=
                   {| cm_active := Some (fun env => env);
                      cm_with := JUndefined;
                      cm_members := ∅ |} ]} |}.

(** A context in which a local span has been entered. *)
Definition sampleNested : Context :=
  setSpan ROOT_CONTEXT
    (RecordingSpan "ai.streamText"
       {| traceId := "0af7651916cd43dd8448eb211c80319c";
          spanId := "b7ad6b7169203331";
          traceFlags := TraceFlags_SAMPLED;
          isRemote := false |}).

(** The relabelling rule in the words of the specification: of the two
    source attributes, the first that is present gives the value. *)
Definition firstPresentSource (attrs : gmap string JsVal) (first second : string)
    : option JsVal :=
  match attrs !! first with
  | Some x => Some x
  | None => attrs !! second
  end.

(** A streaming span whose model id is the empty string. *)
Definition spanEmptyModelId : SpanObj :=
  {| sp_name := Some "ai.streamText.doStream";
     sp_table := {[ "ai.model.id" := JStr "" ]};
     sp_exposed := true |}.

(** The streaming span of the specification's example. *)
Definition spanGpt4 : SpanObj :=
  {| sp_name := Some "ai.streamText.doStream";
     sp_table := {[ "ai.model.id" := JStr "gpt-4" ]};
     sp_exposed := true |}.

(** The two span names that are relabelled. *)
Definition relabelledName (span : SpanObj) : Prop :=
  sp_name span = Some "ai.streamText.doStream"
  \/ sp_name span = Some "ai.generateText.doGenerate".

(** [(span.attributes || {})[k]] *)
Definition readAttribute (span : SpanObj) (k : string) : JsVal :=
  member (default ∅ (attributes span)) k.

(** How the handler fills the destination [dst] of [span'] from the
    [span] it was given: from the source [src] when its value is truthy,
    else from [dst] itself when that is truthy, else not at all. *)
Definition filledFrom (span span' : SpanObj) (src dst : string) : Prop :=
  (ToBoolean (readAttribute span src) = true ->
   sp_table span' !! dst = Some (readAttribute span src))
  /\ (ToBoolean (readAttribute span src) = false ->
      ToBoolean (readAttribute span dst) = true ->
      sp_table span' !! dst = Some (readAttribute span dst))
  /\ (ToBoolean (readAttribute span src) = false ->
      ToBoolean (readAttribute span dst) = false ->
      sp_table span' !! dst = sp_table span !! dst).

(** An SDK that has not been called yet and whose transport never
    finishes. *)
Definition stuckSdk : Sdk :=
  {| sdk_calls := []; sdk_now := 0; sdk_drain := None |}.

Definition idleEvent : Event :=
  {| ev_type := "session.idle"; ev_properties := None |}.

Definition idleBreadcrumb : Breadcrumb :=
  {| bc_category := "session";
     bc_message := "Session completed";
     bc_level := "info";
     bc_data := None |}.

(** Tool results whose metadata carries the error [""], and ["boom"]. *)
Definition outputEmptyError : ToolOutput :=
  {| metadata := Some {[ "error" := JStr "" ]} |}.

Definition outputBoom : ToolOutput :=
  {| metadata := Some {[ "error" := JStr "boom" ]} |}.

Definition toolTags (input : ToolInput) : list (string * string) :=
  [("source", "tool.execute"); ("tool", tool input)].

(** ** The rest of [createSentryPlugin] and of the hooks *)

(** Number of occurrences of a character in a string. *)
Fixpoint occurrences (c : ascii) (s : string) : nat :=
  match s with
  | EmptyString => 0
  | String a rest => (if Ascii.eqb a c then 1 else 0) + occurrences c rest
  end.

(** The header as the module documentation writes it (lines 38 and 49):
    [`${version}-${traceId}-${spanId}-${flags}`]. *)
Definition traceparentOf (version trace span flags : string) : string :=
  version ++ "-" ++ trace ++ "-" ++ span ++ "-" ++ flags.

(** [a ?? b] where both sides may be [undefined]. *)
Definition coalesce {A} (a b : option A) : option A :=
  match a with
  | Some x => Some x
  | None => b
  end.

Section Configuration.

(** Numbers are floating point; the only operation on them here is
    [parseFloat], taken as given. *)
Context {Num : Type} (parseFloat : string -> Num).

(** [SentryPluginOptions], lines 62-97: every member is optional. *)
Record SentryPluginOptions := MkOptions {
  dsn : option string;
  environment : option string;
  release : option string;
  tracesSampleRate : option Num;
  debug : option bool;
  recordInputs : option bool;
  recordOutputs : option bool
}.

(** The default argument [options = {}] of line 112. *)
Definition noOptions : SentryPluginOptions :=
  {| dsn := None; environment := None; release := None;
     tracesSampleRate := None; debug := None;
     recordInputs := None; recordOutputs := None |}.

(** The argument of [Sentry.init], lines 139-163. *)
Record InitOptions := MkInitOptions {
  cfg_dsn : option string;
  cfg_environment : string;
  cfg_release : string;
  cfg_recordInputs : bool;
  cfg_recordOutputs : bool;
  cfg_tracesSampleRate : Num;
  cfg_sendDefaultPii : bool;
  cfg_debug : bool;
  cfg_enabled : bool;
  cfg_tags : list (string * string)
}.

(** Lines 113-120 and 139-163; [env] is [process.env]. *)
Definition resolveOptions (options : SentryPluginOptions)
    (env : gmap string string) : InitOptions :=
  let dsn_ := coalesce (dsn options) (env !! "SENTRY_DSN") in
  let environment_ :=
    default "development"
      (coalesce (environment options) (env !! "SENTRY_ENVIRONMENT")) in
  let release_ :=
    default "opencode@local"
      (coalesce (release options) (env !! "SENTRY_RELEASE")) in
  let tracesSampleRate_ :=
    match tracesSampleRate options with
    | Some rate => rate
    | None => parseFloat (default "1.0" (env !! "SENTRY_TRACES_SAMPLE_RATE"))
    end in
  let debug_ :=
    match debug options with
    | Some d => d
    | None => match env !! "SENTRY_DEBUG" with
              | Some text => String.eqb text "true"
              | None => false
              end
    end in
  let recordInputs_ := default true (recordInputs options) in
  let recordOutputs_ := default true (recordOutputs options) in
  {| cfg_dsn := dsn_;
     cfg_environment := environment_;
     cfg_release := release_;
     cfg_recordInputs := recordInputs_;
     cfg_recordOutputs := recordOutputs_;
     cfg_tracesSampleRate := tracesSampleRate_;
     cfg_sendDefaultPii := true;
     cfg_debug := debug_;
     cfg_enabled := truthyStr dsn_;
     cfg_tags := [("runtime", "bun"); ("app", "opencode")] |}.

End Configuration.

Arguments SentryPluginOptions : clear implicits.
Arguments InitOptions : clear implicits.
Arguments noOptions {Num}.

(** The plugin function, lines 216-225: what it tells the SDK's scope
    before it returns the hooks. *)
Record Project := MkProject { project_id : string }.

Record PluginInput := MkPluginInput {
  project : option Project;
  directory : string;
  worktree : string
}.

Inductive ScopeCall :=
| SetContext (name : string) (data : list (string * JsVal))
| SetTag (key value : string).

(** [project?.id] *)
Definition projectId (input : PluginInput) : option string :=
  project_id <$> project input.

Definition optStr (o : option string) : JsVal :=
  match o with
  | Some s => JStr s
  | None => JUndefined
  end.

Definition pluginSetup (input : PluginInput) : list ScopeCall :=
  SetContext "opencode"
    [("project", optStr (projectId input));
     ("directory", JStr (directory input));
     ("worktree", JStr (worktree input))]
  :: (if truthyStr (projectId input)
      then [SetTag "project" (default "" (projectId input))]
      else []).

(** What a call recorded by the SDK captures, if it captures anything. *)
Definition capturedBy (c : SdkCall) : option JsVal :=
  match c with
  | CaptureException exn _ => Some exn
  | AddBreadcrumb _ | Flush _ => None
  end.

(** A runtime whose located object has neither [with] nor [active]. *)
Definition sampleOtelBare : OtelContext Context :=
  {| _getContextManager := Some (Some 1%positive);
     _contextManager := None;
     store := {[ 1%positive :=
                   {| cm_active := None;
                      cm_with := JUndefined;
                      cm_members := ∅ |} ]} |}.


(** A guarded write, [if (v) table[k] = v]. *)
Definition setIf (k : string) (v : JsVal) (tb : gmap string JsVal)
    : gmap string JsVal :=
  if ToBoolean v then <[k := v]> tb else tb.

(** A streaming span that keeps its attribute table to itself. *)
Definition spanHidden : SpanObj :=
  {| sp_name := Some "ai.streamText.doStream";
     sp_table := {[ "ai.model.id" := JStr "gpt-4" ]};
     sp_exposed := false |}.

(** The SDK after the awaited [flush(timeout)]. *)
Definition flushed (s : Sdk) (timeout : N) : Sdk :=
  {| sdk_calls := sdk_calls s ++ [Flush timeout];
     sdk_now := (sdk_now s + fst (flushWait timeout (sdk_drain s)))%N;
     sdk_drain :=
       (fun d => (d - fst (flushWait timeout (sdk_drain s)))%N) <$> sdk_drain s |}.

Definition sessionCreatedBreadcrumb (sessionId : JsVal) : Breadcrumb :=
  {| bc_category := "session";
     bc_message := "Session created";
     bc_level := "info";
     bc_data := Some [("sessionId", sessionId)] |}.

(** An error payload whose conversion to a string throws. *)
Definition unprintable : JsVal :=
  JOther {| ov_truthy := true; ov_string := None |}.

Definition errorEvent (payload : JsVal) : Event :=
  {| ev_type := "session.error";
     ev_properties := Some {[ "error" := payload ]} |}.

(** A small [process.env]. *)
Definition sampleEnv : gmap string string :=
  {[ "SENTRY_DSN" := "https://key@example.invalid/1";
     "SENTRY_DEBUG" := "TRUE";
     "SENTRY_ENVIRONMENT" := "" ]}.

(** * Properties *)

(** ** Values and strings *)

Lemma nonempty_true (s : string) : nonempty s = true <-> s <> "".
Proof.
  unfold nonempty. rewrite negb_true_iff. split.
  - intros H E. subst s. discriminate H.
  - intros H. apply String.eqb_neq. exact H.
Qed.

Lemma nonempty_false (s : string) : nonempty s = false <-> s = "".
Proof.
  unfold nonempty. rewrite negb_false_iff. apply String.eqb_eq.
Qed.

Lemma split_not_nil (sep : ascii) (s : string) : split sep s <> [].
Proof.
  destruct s as [|c rest]; simpl; [discriminate|].
  destruct (Ascii.eqb c sep); [discriminate|].
  destruct (split sep rest); discriminate.
Qed.

(** The pieces of a split contain no separator. *)
Lemma split_pieces_free (sep : ascii) (s : string) :
  Forall (fun piece => forall c, In c (list_ascii_of_string piece) -> c <> sep)
         (split sep s).
Proof.
  induction s as [|c rest IH]; simpl.
  - constructor; [|constructor]. intros ? [].
  - destruct (Ascii.eqb_spec c sep) as [->|Hne].
    + constructor; [|exact IH]. intros ? [].
    + destruct (split sep rest) as [|piece pieces]; simpl.
      * constructor; [|constructor]. intros a [<-|[]]. exact Hne.
      * inversion IH as [|? ? Hp Hps]; subst. constructor; [|exact Hps].
        intros a [<-|Hin]; [exact Hne|]. apply Hp. exact Hin.
Qed.

Lemma join_split (sep : ascii) (s : string) : join sep (split sep s) = s.
Proof.
  induction s as [|c rest IH]; simpl; [reflexivity|].
  destruct (Ascii.eqb_spec c sep) as [->|Hne].
  - pose proof (split_not_nil sep rest) as Hnn.
    destruct (split sep rest) as [|p ps]; [contradiction|].
    simpl in *. rewrite IH. reflexivity.
  - pose proof (split_not_nil sep rest) as Hnn.
    destruct (split sep rest) as [|p ps]; [contradiction|].
    destruct ps as [|q qs]; simpl in *; rewrite <- IH; reflexivity.
Qed.

Example split_w3c :
  split hyphen w3cExample
  = ["00"; "4bf92f3577b34da6a3ce929d0e0e4736"; "00f067aa0ba902b7"; "01"].
Proof. reflexivity. Qed.

Example split_no_hyphen : split hyphen "abc" = ["abc"].
Proof. reflexivity. Qed.

Example split_empty_pieces : split hyphen "a--b-" = ["a"; ""; "b"; ""].
Proof. reflexivity. Qed.

(** ** Trace Context Importer *)

Lemma parse_absent : parseTraceparent None = noTrace.
Proof. reflexivity. Qed.

Lemma parse_empty : parseTraceparent (Some "") = noTrace.
Proof. reflexivity. Qed.

Lemma parse_other_count (h : string) :
  List.length (split hyphen h) <> 4%nat -> parseTraceparent (Some h) = noTrace.
Proof.
  intros Hlen. unfold parseTraceparent. simpl.
  destruct (nonempty h); [|reflexivity].
  apply Nat.eqb_neq in Hlen. rewrite Hlen. reflexivity.
Qed.

Lemma parse_four_segments (h v t s f : string) :
  split hyphen h = [v; t; s; f] ->
  parseTraceparent (Some h)
  = {| parentTraceId := Some t; parentSpanId := Some s;
       sampled := String.eqb f "01" |}.
Proof.
  intros Hsplit. unfold parseTraceparent. simpl.
  assert (nonempty h = true) as ->.
  { apply nonempty_true. intros ->. discriminate Hsplit. }
  rewrite Hsplit. reflexivity.
Qed.

(** C3.  An absent header, and every header whose split on the hyphen has a
    number of segments other than 4, leaves both identifiers unset (the
    variables keep their initial values, nothing is extracted in part), and
    there is then no triple to continue from.  Conversely the segment count
    is the only thing the parse looks at: whenever the variables are left
    unset, the header was absent or had another count. *)
Theorem importer_none_unless_four_segments (traceparent : option string) :
  ((forall h, traceparent = Some h -> List.length (split hyphen h) <> 4%nat)
   <-> parseTraceparent traceparent = noTrace)
  /\ (parseTraceparent traceparent = noTrace ->
      parentTraceId (parseTraceparent traceparent) = None
      /\ parentSpanId (parseTraceparent traceparent) = None
      /\ importedTriple (parseTraceparent traceparent) = None).
Proof.
  split.
  - split.
    + intros Hcount. destruct traceparent as [h|]; [|reflexivity].
      apply parse_other_count. apply Hcount. reflexivity.
    + intros Hnone h -> Hlen.
      destruct (split hyphen h) as [|v [|t [|s [|f [|x xs]]]]] eqn:Hsplit;
        try discriminate Hlen.
      rewrite (parse_four_segments _ _ _ _ _ Hsplit) in Hnone.
      discriminate Hnone.
  - intros ->. repeat split.
Qed.

Lemma importer_none_unless_four_segments_witness :
  List.length (split hyphen "00-4bf92f3577b34da6a3ce929d0e0e4736-01") = 3%nat
  /\ parseTraceparent (Some "00-4bf92f3577b34da6a3ce929d0e0e4736-01") = noTrace
  /\ importedTriple (parseTraceparent (Some "00-4bf92f3577b34da6a3ce929d0e0e4736-01"))
     = None.
Proof.
  split; [reflexivity|].
  destruct (importer_none_unless_four_segments
              (Some "00-4bf92f3577b34da6a3ce929d0e0e4736-01"))
    as [[Hcount _] Hnone].
  assert (parseTraceparent (Some "00-4bf92f3577b34da6a3ce929d0e0e4736-01") = noTrace)
    as Hparse.
  { apply Hcount. intros h [= <-]. discriminate. }
  split; [exact Hparse|]. apply Hnone. exact Hparse.
Defined.

(** C4.  For a header of exactly four segments the parse takes the second
    and third segments as they are, and [sampled] is true exactly when the
    fourth is the string 01.  The two headers of the W3C example parse to the
    same identifiers, sampled for flags 01 and unsampled for flags 00. *)
Theorem importer_sampled_iff_flags_01 (h v t s f : string) :
  split hyphen h = [v; t; s; f] ->
  parentTraceId (parseTraceparent (Some h)) = Some t
  /\ parentSpanId (parseTraceparent (Some h)) = Some s
  /\ (sampled (parseTraceparent (Some h)) = true <-> f = "01")
  /\ (sampled (parseTraceparent (Some h)) = false <-> f <> "01")
  /\ importedTriple (parseTraceparent (Some w3cExample))
     = Some ("4bf92f3577b34da6a3ce929d0e0e4736", "00f067aa0ba902b7", true)
  /\ importedTriple (parseTraceparent (Some w3cExampleUnsampled))
     = Some ("4bf92f3577b34da6a3ce929d0e0e4736", "00f067aa0ba902b7", false).
Proof.
  intros Hsplit. rewrite (parse_four_segments _ _ _ _ _ Hsplit). simpl.
  repeat split; try reflexivity.
  - apply String.eqb_eq.
  - apply String.eqb_eq.
  - apply String.eqb_neq.
  - apply String.eqb_neq.
Qed.

Lemma importer_sampled_iff_flags_01_witness :
  split hyphen "00-ab-cd-03" = ["00"; "ab"; "cd"; "03"]
  /\ parentTraceId (parseTraceparent (Some "00-ab-cd-03")) = Some "ab"
  /\ (sampled (parseTraceparent (Some "00-ab-cd-03")) = false <-> "03" <> "01").
Proof.
  split; [reflexivity|].
  pose proof (importer_sampled_iff_flags_01 "00-ab-cd-03" "00" "ab" "cd" "03"
                eq_refl) as (Ht & _ & _ & Hf & _).
  split; [exact Ht | exact Hf].
Defined.

(** ** Context Continuity Patch *)

Section PatchProperties.

Context {Env : Type}.
Implicit Types (o : OtelContext Env) (cm : ContextManager Env).

Lemma imported_four_segments (h v t s f : string) :
  split hyphen h = [v; t; s; f] -> t <> "" -> s <> "" ->
  importedTriple (parseTraceparent (Some h)) = Some (t, s, String.eqb f "01").
Proof.
  intros Hsplit Ht Hs. rewrite (parse_four_segments _ _ _ _ _ Hsplit).
  unfold importedTriple. simpl.
  apply nonempty_true in Ht, Hs. rewrite Ht, Hs. reflexivity.
Qed.

Lemma imported_empty_id (h v t s f : string) :
  split hyphen h = [v; t; s; f] -> t = "" \/ s = "" ->
  importedTriple (parseTraceparent (Some h)) = None.
Proof.
  intros Hsplit Hempty. rewrite (parse_four_segments _ _ _ _ _ Hsplit).
  unfold importedTriple. simpl.
  destruct Hempty as [-> | ->]; simpl; [reflexivity|].
  rewrite andb_false_r. reflexivity.
Qed.

Lemma imported_ids_nonempty (v : TraceVars) (t s : string) (smp : bool) :
  importedTriple v = Some (t, s, smp) ->
  parentTraceId v = Some t /\ parentSpanId v = Some s /\ sampled v = smp
  /\ t <> "" /\ s <> "".
Proof.
  unfold importedTriple.
  destruct (parentTraceId v) as [t'|]; [|discriminate].
  destruct (parentSpanId v) as [s'|]; [|discriminate].
  destruct (nonempty t') eqn:Ht; [|discriminate].
  destruct (nonempty s') eqn:Hs; [|discriminate].
  simpl. intros [= <- <- <-].
  apply nonempty_true in Ht, Hs. repeat split; assumption.
Qed.

(** With a trace to continue and a manager that has both members, the
    plugin is created and the manager's [active] is the wrapper. *)
Lemma create_installs (h v t s f : string) (activeNow : Context)
    (hasClient : bool) o (l : loc) cm (originalActive : Env -> Context) :
  split hyphen h = [v; t; s; f] -> t <> "" -> s <> "" ->
  locateContextManager o = Some l ->
  store o !! l = Some cm ->
  ToBoolean (cm_with cm) = true ->
  cm_active cm = Some originalActive ->
  createSentryPlugin (Some h) activeNow hasClient o
  = Returned
      {| init_otel :=
           {| _getContextManager := _getContextManager o;
              _contextManager := _contextManager o;
              store :=
                <[l := {| cm_active :=
                            Some (patchedActive originalActive
                                    (setSpanContext activeNow
                                       (remoteParentContext t s (String.eqb f "01"))));
                          cm_with := cm_with cm;
                          cm_members := cm_members cm |}]> (store o) |};
         init_spanStart := hasClient |}.
Proof.
  intros Hsplit Ht Hs Hloc Hcm Hwith Hact.
  unfold createSentryPlugin, injectTraceparent, contextActive.
  rewrite (imported_four_segments _ _ _ _ _ Hsplit Ht Hs), Hloc, Hcm, Hact.
  unfold patchContextManager. rewrite Hcm, Hwith, Hact. reflexivity.
Qed.

Lemma create_without_triple (traceparent : option string)
    (activeNow : Context) (hasClient : bool) o :
  importedTriple (parseTraceparent traceparent) = None ->
  createSentryPlugin traceparent activeNow hasClient o
  = Returned {| init_otel := o; init_spanStart := hasClient |}.
Proof.
  intros Hnone. unfold createSentryPlugin, injectTraceparent.
  rewrite Hnone. reflexivity.
Qed.

(** C1.  Once the patch is installed (a header of four segments with
    non-empty identifiers, a located manager with a truthy [with] and an
    [active]), every call of the manager's [active] for which the original
    operation returns a context without a span yields the root context: the
    context active at initialisation with the remote parent attached, whose
    span context carries the trace-id of the header. *)
Theorem patched_active_falls_back_to_root (h v t s f : string)
    (activeNow : Context) (hasClient : bool) o (l : loc) cm
    (originalActive : Env -> Context) :
  split hyphen h = [v; t; s; f] -> t <> "" -> s <> "" ->
  locateContextManager o = Some l ->
  store o !! l = Some cm ->
  ToBoolean (cm_with cm) = true ->
  cm_active cm = Some originalActive ->
  exists init root,
    createSentryPlugin (Some h) activeNow hasClient o = Returned init
    /\ rootContextOf (parseTraceparent (Some h)) activeNow = Some root
    /\ getSpanContext root = Some (remoteParentContext t s (String.eqb f "01"))
    /\ traceId <$> getSpanContext root = Some t
    /\ forall env, getSpan (originalActive env) = None ->
                   callActive (init_otel init) l env = Some root.
Proof.
  intros Hsplit Ht Hs Hloc Hcm Hwith Hact.
  eexists. exists (setSpanContext activeNow (remoteParentContext t s (String.eqb f "01"))).
  split; [eapply create_installs; eassumption|].
  split.
  { unfold rootContextOf.
    rewrite (imported_four_segments _ _ _ _ _ Hsplit Ht Hs). reflexivity. }
  split; [reflexivity|]. split; [reflexivity|].
  intros env Hnone. unfold callActive. simpl.
  rewrite lookup_insert_eq. simpl. unfold patchedActive. rewrite Hnone.
  reflexivity.
Qed.

(** C2.  Once the patch is installed, every call of the manager's [active]
    for which the original operation returns a context that holds a span
    yields that very context, whatever the root context is. *)
Theorem patched_active_keeps_explicit_span (h v t s f : string)
    (activeNow : Context) (hasClient : bool) o (l : loc) cm
    (originalActive : Env -> Context) :
  split hyphen h = [v; t; s; f] -> t <> "" -> s <> "" ->
  locateContextManager o = Some l ->
  store o !! l = Some cm ->
  ToBoolean (cm_with cm) = true ->
  cm_active cm = Some originalActive ->
  exists init,
    createSentryPlugin (Some h) activeNow hasClient o = Returned init
    /\ forall env, getSpan (originalActive env) <> None ->
         callActive (init_otel init) l env = Some (originalActive env)
         /\ (forall root,
               rootContextOf (parseTraceparent (Some h)) activeNow = Some root ->
               originalActive env <> root ->
               callActive (init_otel init) l env <> Some root).
Proof.
  intros Hsplit Ht Hs Hloc Hcm Hwith Hact.
  eexists. split; [eapply create_installs; eassumption|].
  intros env Hspan.
  assert (callActive
            {| _getContextManager := _getContextManager o;
               _contextManager := _contextManager o;
               store :=
                 <[l := {| cm_active :=
                             Some (patchedActive originalActive
                                     (setSpanContext activeNow
                                        (remoteParentContext t s (String.eqb f "01"))));
                           cm_with := cm_with cm;
                           cm_members := cm_members cm |}]> (store o) |} l env
          = Some (originalActive env)) as Hcall.
  { unfold callActive. simpl. rewrite lookup_insert_eq. simpl.
    unfold patchedActive. destruct (getSpan (originalActive env)); [reflexivity|].
    contradiction. }
  simpl. split; [exact Hcall|].
  intros root _ Hne. rewrite Hcall. intros [= Heq]. contradiction.
Qed.

(** C5, as stated, fails.  The located object has no [with], so the
    installation is to be skipped; it has no [active] either, and with a
    trace to continue [createSentryPlugin] throws at line 175, before the
    guard of line 184 is reached. *)
Lemma patch_skip_throws_without_active :
  locateContextManager sampleOtelBare = Some 1%positive
  /\ cm_with <$> store sampleOtelBare !! 1%positive = Some JUndefined
  /\ createSentryPlugin (Some w3cExample) ROOT_CONTEXT true sampleOtelBare
     = Threw TypeError.
Proof.
  split; [reflexivity|].
  split.
  - unfold sampleOtelBare. simpl. rewrite lookup_singleton_eq. reflexivity.
  - unfold createSentryPlugin, injectTraceparent, contextActive.
    change (importedTriple (parseTraceparent (Some w3cExample)))
      with (Some ("4bf92f3577b34da6a3ce929d0e0e4736", "00f067aa0ba902b7", true)).
    unfold sampleOtelBare. simpl. rewrite lookup_singleton_eq. reflexivity.
Qed.

(** C5, amended.  When no context manager is located, or the located one
    has the callable [active] that its declared type requires but no truthy
    [with], [createSentryPlugin] returns normally, the tracing API and every
    object it reaches are as they were, and the rest of the initialisation
    (the [spanStart] registration) is done as usual. *)
Theorem patch_skipped_without_capability (traceparent : option string)
    (activeNow : Context) (hasClient : bool) o :
  (locateContextManager o = None
   \/ exists l, locateContextManager o = Some l
                /\ forall cm, store o !! l = Some cm ->
                              ToBoolean (cm_with cm) = false
                              /\ cm_active cm <> None) ->
  createSentryPlugin traceparent activeNow hasClient o
  = Returned {| init_otel := o; init_spanStart := hasClient |}.
Proof.
  intros Hskip. unfold createSentryPlugin, injectTraceparent, contextActive.
  destruct (importedTriple (parseTraceparent traceparent)) as [[[t s] smp]|];
    [|reflexivity].
  destruct Hskip as [-> | (l & -> & Hlacks)]; [reflexivity|].
  unfold patchContextManager.
  destruct (store o !! l) as [cm|] eqn:Hcm; [|reflexivity].
  destruct (Hlacks cm eq_refl) as [Hwith Hactive].
  destruct (cm_active cm) as [originalActive|]; [|contradiction].
  rewrite Hwith. reflexivity.
Qed.

(** C6.  Whatever [createSentryPlugin] does to the tracing API, it keeps the
    two members of [otel.context], keeps every object other than the located
    manager as it is, and keeps the manager's [with] and its other members:
    only [active] can differ. *)
Theorem patch_replaces_only_active (traceparent : option string)
    (activeNow : Context) (hasClient : bool) o (init : Initialized Env) :
  createSentryPlugin traceparent activeNow hasClient o = Returned init ->
  _getContextManager (init_otel init) = _getContextManager o
  /\ _contextManager (init_otel init) = _contextManager o
  /\ forall l,
       cm_with <$> store (init_otel init) !! l = cm_with <$> store o !! l
       /\ cm_members <$> store (init_otel init) !! l = cm_members <$> store o !! l
       /\ (locateContextManager o <> Some l ->
           store (init_otel init) !! l = store o !! l).
Proof.
  unfold createSentryPlugin, injectTraceparent, contextActive.
  destruct (importedTriple (parseTraceparent traceparent)) as [[[t s] smp]|];
    [|intros [= <-]; simpl; auto].
  destruct (locateContextManager o) as [l0|]; [|intros [= <-]; simpl; auto].
  unfold patchContextManager.
  destruct (store o !! l0) as [cm|] eqn:Hcm; [|intros [= <-]; simpl; auto].
  destruct (cm_active cm) as [orig|]; [|discriminate].
  destruct (ToBoolean (cm_with cm)); [|intros [= <-]; simpl; auto].
  intros [= <-]. simpl. split; [reflexivity|]. split; [reflexivity|].
  intros l. destruct (decide (l0 = l)) as [<-|Hne].
  - rewrite lookup_insert_eq, Hcm. simpl. repeat split. congruence.
  - rewrite lookup_insert_ne by exact Hne. auto.
Qed.

(** C10.  For a header of four segments, the root context is built exactly
    when both identifier segments are non-empty, and the tracing API is
    touched only then.  With an empty trace-id or span-id segment the header
    passes the count check, yet [createSentryPlugin] leaves the tracing API
    as it was and returns what it returns for an absent header. *)
Theorem empty_identifier_is_as_absent (h v t s f : string)
    (activeNow : Context) (hasClient : bool) o :
  split hyphen h = [v; t; s; f] ->
  List.length (split hyphen h) = 4%nat
  /\ (rootContextOf (parseTraceparent (Some h)) activeNow <> None
      <-> t <> "" /\ s <> "")
  /\ (forall init : Initialized Env,
        createSentryPlugin (Some h) activeNow hasClient o = Returned init ->
        init_otel init <> o -> t <> "" /\ s <> "")
  /\ (t = "" \/ s = "" ->
      createSentryPlugin (Some h) activeNow hasClient o
      = Returned {| init_otel := o; init_spanStart := hasClient |}
      /\ createSentryPlugin (Some h) activeNow hasClient o
         = createSentryPlugin None activeNow hasClient o).
Proof.
  intros Hsplit.
  assert (t = "" \/ s = "" \/ (t <> "" /\ s <> "")) as Hcases.
  { destruct (nonempty t) eqn:Ht; [|left; apply nonempty_false; exact Ht].
    destruct (nonempty s) eqn:Hs; [|right; left; apply nonempty_false; exact Hs].
    right; right. split; apply nonempty_true; assumption. }
  assert (t = "" \/ s = "" ->
          importedTriple (parseTraceparent (Some h)) = None) as Hnone.
  { intros He. eapply imported_empty_id; eassumption. }
  split; [rewrite Hsplit; reflexivity|].
  split.
  { unfold rootContextOf. split.
    - intros Hroot. destruct Hcases as [He|[He|Hne]]; [| |exact Hne].
      + rewrite Hnone in Hroot by (left; exact He). contradiction.
      + rewrite Hnone in Hroot by (right; exact He). contradiction.
    - intros [Ht Hs].
      rewrite (imported_four_segments _ _ _ _ _ Hsplit Ht Hs). discriminate. }
  split.
  { intros init Hcreate Hchanged.
    destruct Hcases as [He|[He|Hne]]; [| |exact Hne].
    - rewrite create_without_triple in Hcreate by (apply Hnone; left; exact He).
      injection Hcreate as <-. contradiction.
    - rewrite create_without_triple in Hcreate by (apply Hnone; right; exact He).
      injection Hcreate as <-. contradiction. }
  intros He. rewrite create_without_triple by (apply Hnone; exact He).
  split; reflexivity.
Qed.

End PatchProperties.

Lemma create_sample_returns :
  exists init,
    createSentryPlugin (Some w3cExample) ROOT_CONTEXT true sampleOtel = Returned init.
Proof.
  eexists.
  apply (create_installs w3cExample "00" "4bf92f3577b34da6a3ce929d0e0e4736"
           "00f067aa0ba902b7" "01" ROOT_CONTEXT true sampleOtel 1%positive
           sampleManager (fun env => env));
    [reflexivity | discriminate | discriminate | reflexivity
    | apply lookup_singleton_eq | reflexivity | reflexivity].
Defined.

Lemma patched_active_falls_back_to_root_witness :
  exists init root,
    createSentryPlugin (Some w3cExample) ROOT_CONTEXT true sampleOtel = Returned init
    /\ getSpan ROOT_CONTEXT = None
    /\ callActive (init_otel init) 1%positive ROOT_CONTEXT = Some root
    /\ traceId <$> getSpanContext root = Some "4bf92f3577b34da6a3ce929d0e0e4736".
Proof.
  destruct (patched_active_falls_back_to_root
              w3cExample "00" "4bf92f3577b34da6a3ce929d0e0e4736"
              "00f067aa0ba902b7" "01" ROOT_CONTEXT true sampleOtel 1%positive
              sampleManager (fun env => env))
    as (init & root & Hcreate & _ & _ & Htrace & Hcalls);
    [reflexivity | discriminate | discriminate | reflexivity
    | apply lookup_singleton_eq | reflexivity | reflexivity |].
  exists init, root.
  split; [exact Hcreate|]. split; [reflexivity|].
  split; [apply Hcalls; reflexivity | exact Htrace].
Defined.

Lemma patched_active_keeps_explicit_span_witness :
  exists init,
    createSentryPlugin (Some w3cExample) ROOT_CONTEXT true sampleOtel = Returned init
    /\ getSpan sampleNested <> None
    /\ callActive (init_otel init) 1%positive sampleNested = Some sampleNested.
Proof.
  destruct (patched_active_keeps_explicit_span
              w3cExample "00" "4bf92f3577b34da6a3ce929d0e0e4736"
              "00f067aa0ba902b7" "01" ROOT_CONTEXT true sampleOtel 1%positive
              sampleManager (fun env => env))
    as (init & Hcreate & Hcalls);
    [reflexivity | discriminate | discriminate | reflexivity
    | apply lookup_singleton_eq | reflexivity | reflexivity |].
  exists init.
  split; [exact Hcreate|]. split; [discriminate|].
  apply Hcalls. discriminate.
Defined.

Lemma patch_skipped_without_capability_witness :
  locateContextManager sampleOtelNoWith = Some 1%positive
  /\ createSentryPlugin (Some w3cExample) ROOT_CONTEXT true sampleOtelNoWith
     = Returned {| init_otel := sampleOtelNoWith; init_spanStart := true |}.
Proof.
  split; [reflexivity|].
  apply patch_skipped_without_capability.
  right. exists 1%positive. split; [reflexivity|].
  intros cm Hcm. unfold sampleOtelNoWith in Hcm. simpl in Hcm.
  rewrite lookup_singleton_eq in Hcm. injection Hcm as <-.
  split; [reflexivity | discriminate].
Defined.

Lemma patch_replaces_only_active_witness :
  cm_with <$> store (sampleOtel) !! 1%positive = Some someFunction
  /\ exists init,
       createSentryPlugin (Some w3cExample) ROOT_CONTEXT true sampleOtel = Returned init
       /\ cm_with <$> store (init_otel init) !! 1%positive = Some someFunction.
Proof.
  assert (cm_with <$> store sampleOtel !! 1%positive = Some someFunction) as Hwith.
  { unfold sampleOtel. simpl. rewrite lookup_singleton_eq. reflexivity. }
  split; [exact Hwith|].
  destruct (create_sample_returns) as (init & Hcreate).
  exists init. split; [exact Hcreate|].
  destruct (patch_replaces_only_active _ _ _ _ _ Hcreate) as (_ & _ & Hall).
  destruct (Hall 1%positive) as (Hw & _). rewrite Hw. exact Hwith.
Defined.

Lemma empty_identifier_is_as_absent_witness :
  split hyphen "00--00f067aa0ba902b7-01" = ["00"; ""; "00f067aa0ba902b7"; "01"]
  /\ createSentryPlugin (Some "00--00f067aa0ba902b7-01") ROOT_CONTEXT true sampleOtel
     = Returned {| init_otel := sampleOtel; init_spanStart := true |}
  /\ createSentryPlugin (Some "00--00f067aa0ba902b7-01") ROOT_CONTEXT true sampleOtel
     = createSentryPlugin None ROOT_CONTEXT true sampleOtel.
Proof.
  split; [reflexivity|].
  destruct (empty_identifier_is_as_absent
              "00--00f067aa0ba902b7-01" "00" "" "00f067aa0ba902b7" "01"
              ROOT_CONTEXT true sampleOtel eq_refl) as (_ & _ & _ & Hempty).
  apply Hempty. left. reflexivity.
Defined.

(** ** Span relabelling *)

Lemma onSpanStart_relabelled (span : SpanObj) :
  relabelledName span ->
  onSpanStart span
  = let span1 := setAttribute "sentry.op" (JStr "gen_ai.chat") span in
    let attrs := default ∅ (attributes span1) in
    let model := jsOr (member attrs "ai.model.id") (member attrs "gen_ai.request.model") in
    let provider := jsOr (member attrs "ai.model.provider") (member attrs "gen_ai.system") in
    let span2 := if ToBoolean model
                 then setAttribute "gen_ai.request.model" model span1 else span1 in
    if ToBoolean provider then setAttribute "gen_ai.system" provider span2 else span2.
Proof.
  intros [Hname | Hname]; unfold onSpanStart; rewrite Hname; reflexivity.
Qed.

Lemma onSpanStart_other_name (span : SpanObj) :
  ~ relabelledName span -> onSpanStart span = span.
Proof.
  intros Hother. unfold onSpanStart.
  destruct (sp_name span) as [name|] eqn:Hname; simpl; [|reflexivity].
  destruct (nonempty name); [|reflexivity].
  destruct (String.eqb_spec name "ai.streamText.doStream") as [->|_].
  { exfalso. apply Hother. left. exact Hname. }
  destruct (String.eqb_spec name "ai.generateText.doGenerate") as [->|_].
  { exfalso. apply Hother. right. exact Hname. }
  reflexivity.
Qed.

(** C7, as stated, fails.  A streaming span whose [ai.model.id] is present
    but is the empty string: the first present source is [ai.model.id], yet
    the handler leaves [gen_ai.request.model] unset. *)
Lemma relabel_first_present_fails :
  relabelledName spanEmptyModelId
  /\ firstPresentSource (sp_table spanEmptyModelId)
       "ai.model.id" "gen_ai.request.model" = Some (JStr "")
  /\ sp_table (onSpanStart spanEmptyModelId) !! "gen_ai.request.model" = None.
Proof.
  split; [left; reflexivity|].
  split; vm_compute; reflexivity.
Qed.

Lemma member_insert_ne (attrs : gmap string JsVal) (k k' : string) (v : JsVal) :
  k <> k' -> member (<[k := v]> attrs) k' = member attrs k'.
Proof.
  intros Hne. unfold member. rewrite lookup_insert_ne by exact Hne. reflexivity.
Qed.

Lemma readAttribute_after_op (span : SpanObj) (k : string) :
  k <> "sentry.op" ->
  member (default ∅ (attributes (setAttribute "sentry.op" (JStr "gen_ai.chat") span))) k
  = readAttribute span k.
Proof.
  intros Hne. unfold readAttribute, attributes, setAttribute. simpl.
  destruct (sp_exposed span); simpl; [|reflexivity].
  apply member_insert_ne. congruence.
Qed.

Lemma filledFrom_table (span span' : SpanObj) (src dst : string) :
  sp_table span' !! dst
  = (if ToBoolean (jsOr (readAttribute span src) (readAttribute span dst))
     then Some (jsOr (readAttribute span src) (readAttribute span dst))
     else sp_table span !! dst) ->
  filledFrom span span' src dst.
Proof.
  intros Htable. unfold filledFrom. rewrite Htable. unfold jsOr.
  repeat split.
  - intros Hsrc. rewrite Hsrc. cbn. rewrite Hsrc. reflexivity.
  - intros Hsrc Hdst. rewrite Hsrc. cbn. rewrite Hdst. reflexivity.
  - intros Hsrc Hdst. rewrite Hsrc. cbn. rewrite Hdst. reflexivity.
Qed.

(** C7, amended.  A span named [ai.streamText.doStream] or
    [ai.generateText.doGenerate] gets the operation label [gen_ai.chat];
    its [gen_ai.request.model] is set from [ai.model.id] when that value is
    truthy, else from a truthy [gen_ai.request.model]; its [gen_ai.system]
    likewise from [ai.model.provider], else [gen_ai.system]; when neither
    source is truthy the destination stays as it was; no other attribute, nor
    the name, changes.  A span of any other name is returned as it is. *)
Theorem relabel_first_truthy_source (span : SpanObj) :
  (relabelledName span ->
   sp_name (onSpanStart span) = sp_name span
   /\ sp_exposed (onSpanStart span) = sp_exposed span
   /\ sp_table (onSpanStart span) !! "sentry.op" = Some (JStr "gen_ai.chat")
   /\ filledFrom span (onSpanStart span) "ai.model.id" "gen_ai.request.model"
   /\ filledFrom span (onSpanStart span) "ai.model.provider" "gen_ai.system"
   /\ (forall k, k <> "sentry.op" -> k <> "gen_ai.request.model" ->
                 k <> "gen_ai.system" ->
                 sp_table (onSpanStart span) !! k = sp_table span !! k))
  /\ (~ relabelledName span -> onSpanStart span = span).
Proof.
  split; [|apply onSpanStart_other_name].
  intros Hname. rewrite (onSpanStart_relabelled span Hname). cbv zeta.
  rewrite !readAttribute_after_op by discriminate.
  set (model := jsOr (readAttribute span "ai.model.id")
                     (readAttribute span "gen_ai.request.model")).
  set (provider := jsOr (readAttribute span "ai.model.provider")
                        (readAttribute span "gen_ai.system")).
  split; [destruct (ToBoolean model), (ToBoolean provider); reflexivity|].
  split; [destruct (ToBoolean model), (ToBoolean provider); reflexivity|].
  split.
  { destruct (ToBoolean model), (ToBoolean provider); simpl;
      repeat (rewrite lookup_insert_ne by discriminate);
      apply lookup_insert_eq. }
  split.
  { apply filledFrom_table. fold model.
    destruct (ToBoolean model), (ToBoolean provider); simpl;
      repeat (rewrite lookup_insert_ne by discriminate);
      try apply lookup_insert_eq; reflexivity. }
  split.
  { apply filledFrom_table. fold provider.
    destruct (ToBoolean model), (ToBoolean provider); simpl;
      try apply lookup_insert_eq;
      repeat (rewrite lookup_insert_ne by discriminate); reflexivity. }
  intros k Hop Hmodel Hprov.
  destruct (ToBoolean model), (ToBoolean provider); simpl;
    repeat (rewrite lookup_insert_ne by congruence); reflexivity.
Qed.

Lemma relabel_first_truthy_source_witness :
  relabelledName spanGpt4
  /\ sp_table (onSpanStart spanGpt4) !! "sentry.op" = Some (JStr "gen_ai.chat")
  /\ sp_table (onSpanStart spanGpt4) !! "gen_ai.request.model" = Some (JStr "gpt-4")
  /\ sp_table (onSpanStart spanGpt4) !! "gen_ai.system" = None.
Proof.
  assert (relabelledName spanGpt4) as Hname by (left; reflexivity).
  split; [exact Hname|].
  destruct (relabel_first_truthy_source spanGpt4) as [Hrelabel _].
  destruct (Hrelabel Hname) as (_ & _ & Hop & Hmodel & Hprovider & _).
  split; [exact Hop|].
  split.
  - destruct Hmodel as (Hfirst & _). apply Hfirst. reflexivity.
  - destruct Hprovider as (_ & _ & Hneither).
    rewrite Hneither; reflexivity.
Defined.

(** ** Event Router *)

Lemma flushWait_bounded (timeout : N) (drain : option N) :
  (fst (flushWait timeout drain) <= timeout)%N.
Proof.
  unfold flushWait. destruct drain as [d|]; simpl; [|lia].
  destruct (N.leb_spec d timeout); simpl; lia.
Qed.

Lemma flushWait_never (timeout : N) : flushWait timeout None = (timeout, false).
Proof. reflexivity. Qed.

(** C8.  A session-idle event makes exactly two SDK calls, in this order:
    the informational breadcrumb, then one flush with timeout 2000.  The
    handler returns, and the time it has waited is at most 2000 ms; when the
    transport never finishes it is exactly 2000 ms. *)
Theorem idle_breadcrumb_then_bounded_flush (event : Event) (sdk : Sdk) :
  ev_type event = "session.idle" ->
  exists sdk',
    onEvent event sdk = (Returned tt, sdk')
    /\ sdk_calls sdk' = (sdk_calls sdk ++ [AddBreadcrumb idleBreadcrumb; Flush 2000])%list
    /\ (sdk_now sdk <= sdk_now sdk' <= sdk_now sdk + 2000)%N
    /\ (sdk_drain sdk = None -> sdk_now sdk' = sdk_now sdk + 2000)%N.
Proof.
  intros Htype. unfold onEvent. rewrite Htype. simpl.
  unfold bind, addBreadcrumb, record, flush, ret. simpl.
  pose proof (flushWait_bounded 2000 (sdk_drain sdk)) as Hbound.
  destruct (flushWait 2000 (sdk_drain sdk)) as [wait sent] eqn:Hwait.
  simpl in Hbound. eexists. split; [reflexivity|]. simpl.
  split; [rewrite <- app_assoc; reflexivity|].
  split; [lia|].
  intros Hnever. rewrite Hnever, flushWait_never in Hwait.
  injection Hwait as <- _. reflexivity.
Qed.

Lemma idle_breadcrumb_then_bounded_flush_witness :
  ev_type idleEvent = "session.idle"
  /\ exists sdk',
       onEvent idleEvent stuckSdk = (Returned tt, sdk')
       /\ sdk_calls sdk' = [AddBreadcrumb idleBreadcrumb; Flush 2000]
       /\ sdk_now sdk' = 2000%N.
Proof.
  split; [reflexivity|].
  destruct (idle_breadcrumb_then_bounded_flush idleEvent stuckSdk eq_refl)
    as (sdk' & Hrun & Hcalls & _ & Hnever).
  exists sdk'. split; [exact Hrun|]. split; [exact Hcalls|].
  apply Hnever. reflexivity.
Defined.

(** C9, as stated, fails.  The metadata carries the error value [""], a
    plain string and no exception, whose string conversion is [""]; the
    handler returns without any call to the SDK, so no exception is
    captured. *)
Lemma tool_error_empty_string_not_captured :
  optMember (metadata outputEmptyError) "error" = JStr ""
  /\ instanceofError (JStr "") = false
  /\ String_ (JStr "") = Some ""
  /\ toolExecuteAfter {| tool := "bash" |} outputEmptyError stuckSdk
     = (Returned tt, stuckSdk).
Proof.
  assert (optMember (metadata outputEmptyError) "error" = JStr "") as Herror.
  { unfold outputEmptyError, optMember, member. simpl.
    rewrite lookup_singleton_eq. reflexivity. }
  split; [exact Herror|]. split; [reflexivity|]. split; [reflexivity|].
  unfold toolExecuteAfter. rewrite Herror. reflexivity.
Qed.

(** C9, amended.  With no error field, or a falsy error value, the handler
    makes no SDK call.  With a truthy error value that is not an exception
    and converts to the string [msg], it makes exactly one call, capturing a
    new exception of message [msg] with the tags source=tool.execute and the
    tool name.  With an error value that is an exception it makes exactly one
    call, capturing that value with the same tags. *)
Theorem tool_error_captured_when_truthy (input : ToolInput)
    (output : ToolOutput) (sdk : Sdk) :
  ((metadata output = None
    \/ exists md, metadata output = Some md /\ md !! "error" = None) ->
   toolExecuteAfter input output sdk = (Returned tt, sdk))
  /\ (ToBoolean (optMember (metadata output) "error") = false ->
      toolExecuteAfter input output sdk = (Returned tt, sdk))
  /\ (forall msg,
        ToBoolean (optMember (metadata output) "error") = true ->
        instanceofError (optMember (metadata output) "error") = false ->
        String_ (optMember (metadata output) "error") = Some msg ->
        toolExecuteAfter input output sdk
        = (Returned tt,
           recorded sdk (CaptureException (JError (newError msg)) (toolTags input))))
  /\ (instanceofError (optMember (metadata output) "error") = true ->
      toolExecuteAfter input output sdk
      = (Returned tt,
         recorded sdk (CaptureException (optMember (metadata output) "error")
                         (toolTags input)))).
Proof.
  unfold toolExecuteAfter.
  set (error := optMember (metadata output) "error").
  assert (ToBoolean error = false ->
          (if ToBoolean error
           then let! exn := asException error in
                captureException exn
                  [("source", "tool.execute"); ("tool", tool input)]
           else ret tt) sdk = (Returned tt, sdk)) as Hfalsy.
  { intros ->. reflexivity. }
  split.
  { intros Habsent. apply Hfalsy. subst error.
    destruct Habsent as [-> | (md & -> & Hmd)]; [reflexivity|].
    unfold optMember, member. rewrite Hmd. reflexivity. }
  split; [exact Hfalsy|].
  split.
  - intros msg -> Hinst Hstr. unfold asException. rewrite Hinst, Hstr.
    reflexivity.
  - intros Hinst. destruct error; try discriminate Hinst. reflexivity.
Qed.

Lemma tool_error_captured_when_truthy_witness :
  optMember (metadata outputBoom) "error" = JStr "boom"
  /\ toolExecuteAfter {| tool := "bash" |} outputBoom stuckSdk
     = (Returned tt,
        {| sdk_calls :=
             [CaptureException (JError (newError "boom"))
                [("source", "tool.execute"); ("tool", "bash")]];
           sdk_now := 0;
           sdk_drain := None |}).
Proof.
  assert (optMember (metadata outputBoom) "error" = JStr "boom") as Herror.
  { unfold outputBoom, optMember, member. simpl.
    rewrite lookup_singleton_eq. reflexivity. }
  split; [exact Herror|].
  destruct (tool_error_captured_when_truthy {| tool := "bash" |} outputBoom stuckSdk)
    as (_ & _ & Hcapture & _).
  apply (Hcapture "boom"); rewrite Herror; reflexivity.
Defined.

(** * Further properties of the code *)

(** ** Splitting and the header format *)

Lemma length_split (sep : ascii) (s : string) :
  List.length (split sep s) = S (occurrences sep s).
Proof.
  induction s as [|c rest IH]; simpl; [reflexivity|].
  destruct (Ascii.eqb c sep); simpl.
  - rewrite IH. reflexivity.
  - pose proof (split_not_nil sep rest) as Hnn.
    destruct (split sep rest) as [|piece pieces]; [contradiction|].
    simpl in *. exact IH.
Qed.

Lemma occurrences_app (c : ascii) (a b : string) :
  occurrences c (a ++ b) = (occurrences c a + occurrences c b)%nat.
Proof.
  induction a as [|x rest IH]; simpl; [reflexivity|].
  rewrite IH. lia.
Qed.

Lemma split_free (sep : ascii) (s : string) :
  occurrences sep s = 0%nat -> split sep s = [s].
Proof.
  induction s as [|c rest IH]; simpl; [reflexivity|].
  destruct (Ascii.eqb c sep); simpl; [discriminate|].
  intros Hfree. rewrite (IH Hfree). reflexivity.
Qed.

Lemma split_app_sep (sep : ascii) (a b : string) :
  occurrences sep a = 0%nat ->
  split sep (a ++ String sep b) = a :: split sep b.
Proof.
  induction a as [|c rest IH]; simpl.
  - intros _. rewrite Ascii.eqb_refl. reflexivity.
  - destruct (Ascii.eqb c sep); simpl; [discriminate|].
    intros Hfree. rewrite (IH Hfree). reflexivity.
Qed.

Lemma split_traceparentOf (v t s f : string) :
  occurrences hyphen v = 0%nat -> occurrences hyphen t = 0%nat ->
  occurrences hyphen s = 0%nat -> occurrences hyphen f = 0%nat ->
  split hyphen (traceparentOf v t s f) = [v; t; s; f].
Proof.
  intros Hv Ht Hs Hf.
  change (traceparentOf v t s f)
    with (v ++ String hyphen (t ++ String hyphen (s ++ String hyphen f))).
  rewrite (split_app_sep _ _ _ Hv), (split_app_sep _ _ _ Ht),
    (split_app_sep _ _ _ Hs), (split_free _ _ Hf).
  reflexivity.
Qed.

Lemma occurrences_traceparentOf (v t s f : string) :
  occurrences hyphen (traceparentOf v t s f)
  = (3 + occurrences hyphen v + occurrences hyphen t
     + occurrences hyphen s + occurrences hyphen f)%nat.
Proof.
  unfold traceparentOf. rewrite !occurrences_app. simpl. lia.
Qed.

(** X1.  The identifiers are extracted exactly when the header contains
    three hyphens. *)
Theorem importer_extracts_iff_three_hyphens (h : string) :
  (occurrences hyphen h = 3%nat
   <-> exists t s, parentTraceId (parseTraceparent (Some h)) = Some t
                   /\ parentSpanId (parseTraceparent (Some h)) = Some s)
  /\ (occurrences hyphen h <> 3%nat <-> parseTraceparent (Some h) = noTrace).
Proof.
  pose proof (length_split hyphen h) as Hlen.
  destruct (decide (occurrences hyphen h = 3%nat)) as [Hthree|Hother].
  - rewrite Hthree in Hlen.
    destruct (split hyphen h) as [|v [|t [|s [|f [|x xs]]]]] eqn:Hsplit;
      try discriminate Hlen.
    rewrite (parse_four_segments _ _ _ _ _ Hsplit). simpl.
    split; split; try congruence.
    + intros _. exists t, s. split; reflexivity.
    + intros Heq. discriminate Heq.
  - assert (parseTraceparent (Some h) = noTrace) as Hnone.
    { apply parse_other_count. rewrite Hlen. congruence. }
    rewrite Hnone. simpl. split; split; try congruence.
    intros (t & s & Ht & _). discriminate Ht.
Qed.

(** X2.  A header written as version-trace-span-flags from four fields
    without hyphens, with a non-empty trace and span field, is imported as
    exactly those two identifiers, sampled when the flags field is 01;
    the version field plays no part. *)
Theorem importer_reads_back_formatted_header (v t s f : string) :
  occurrences hyphen v = 0%nat -> occurrences hyphen t = 0%nat ->
  occurrences hyphen s = 0%nat -> occurrences hyphen f = 0%nat ->
  t <> "" -> s <> "" ->
  importedTriple (parseTraceparent (Some (traceparentOf v t s f)))
  = Some (t, s, String.eqb f "01")
  /\ forall v', occurrences hyphen v' = 0%nat ->
                parseTraceparent (Some (traceparentOf v' t s f))
                = parseTraceparent (Some (traceparentOf v t s f)).
Proof.
  intros Hv Ht Hs Hf Htne Hsne.
  pose proof (split_traceparentOf v t s f Hv Ht Hs Hf) as Hsplit.
  split.
  - rewrite (parse_four_segments _ _ _ _ _ Hsplit).
    unfold importedTriple. simpl.
    apply nonempty_true in Htne, Hsne. rewrite Htne, Hsne. reflexivity.
  - intros v' Hv'.
    rewrite (parse_four_segments _ _ _ _ _ Hsplit).
    rewrite (parse_four_segments _ _ _ _ _
               (split_traceparentOf v' t s f Hv' Ht Hs Hf)).
    reflexivity.
Qed.

Lemma importer_reads_back_formatted_header_witness :
  occurrences hyphen "4bf92f3577b34da6a3ce929d0e0e4736" = 0%nat
  /\ importedTriple
       (parseTraceparent
          (Some (traceparentOf "ff" "4bf92f3577b34da6a3ce929d0e0e4736"
                   "00f067aa0ba902b7" "00")))
     = Some ("4bf92f3577b34da6a3ce929d0e0e4736", "00f067aa0ba902b7", false).
Proof.
  split; [reflexivity|].
  apply (importer_reads_back_formatted_header
           "ff" "4bf92f3577b34da6a3ce929d0e0e4736" "00f067aa0ba902b7" "00");
    solve [reflexivity | discriminate].
Defined.

(** X3.  A header written as version-trace-span-flags in which some field
    itself contains a hyphen (a trace-id in UUID notation, say) is not
    imported at all. *)
Theorem importer_rejects_hyphenated_field (v t s f : string) :
  (occurrences hyphen v + occurrences hyphen t
   + occurrences hyphen s + occurrences hyphen f > 0)%nat ->
  parseTraceparent (Some (traceparentOf v t s f)) = noTrace
  /\ importedTriple (parseTraceparent (Some (traceparentOf v t s f))) = None.
Proof.
  intros Hsome.
  assert (parseTraceparent (Some (traceparentOf v t s f)) = noTrace) as Hnone.
  { apply parse_other_count.
    rewrite length_split, occurrences_traceparentOf. lia. }
  rewrite Hnone. split; reflexivity.
Qed.

Lemma importer_rejects_hyphenated_field_witness :
  (occurrences hyphen "123e4567-e89b-12d3-a456-426614174000" > 0)%nat
  /\ parseTraceparent
       (Some (traceparentOf "00" "123e4567-e89b-12d3-a456-426614174000"
                "00f067aa0ba902b7" "01"))
     = noTrace.
Proof.
  split; [vm_compute; lia|].
  apply (importer_rejects_hyphenated_field
           "00" "123e4567-e89b-12d3-a456-426614174000" "00f067aa0ba902b7" "01").
  vm_compute. lia.
Defined.

(** ** The root context and the installed wrapper *)

Section PatchFurther.

Context {Env : Type}.
Implicit Types (o : OtelContext Env) (cm : ContextManager Env).

Lemma create_installs_triple (traceparent : option string) (t s : string)
    (smp : bool) (activeNow : Context) (hasClient : bool) o (l : loc) cm
    (originalActive : Env -> Context) :
  importedTriple (parseTraceparent traceparent) = Some (t, s, smp) ->
  locateContextManager o = Some l ->
  store o !! l = Some cm ->
  ToBoolean (cm_with cm) = true ->
  cm_active cm = Some originalActive ->
  createSentryPlugin traceparent activeNow hasClient o
  = Returned
      {| init_otel :=
           {| _getContextManager := _getContextManager o;
              _contextManager := _contextManager o;
              store :=
                <[l := {| cm_active :=
                            Some (patchedActive originalActive
                                    (setSpanContext activeNow
                                       (remoteParentContext t s smp)));
                          cm_with := cm_with cm;
                          cm_members := cm_members cm |}]> (store o) |};
         init_spanStart := hasClient |}.
Proof.
  intros Htriple Hloc Hcm Hwith Hact.
  unfold createSentryPlugin, injectTraceparent, contextActive.
  rewrite Htriple, Hloc, Hcm, Hact.
  unfold patchContextManager. rewrite Hcm, Hwith, Hact. reflexivity.
Qed.

Lemma patchedActive_has_span (originalActive : Env -> Context)
    (rootContext : Context) (env : Env) :
  getSpan rootContext <> None ->
  getSpan (patchedActive originalActive rootContext env) <> None.
Proof.
  intros Hroot. unfold patchedActive.
  destruct (getSpan (originalActive env)) eqn:Hcur; [|exact Hroot].
  rewrite Hcur. discriminate.
Qed.


(** X5.  Once the wrapper is installed, the manager's [active] never again
    returns a context without a span: it returns either what the original
    operation returns or the root context, and both hold a span. *)
Theorem patched_active_always_has_span (traceparent : option string)
    (t s : string) (smp : bool) (activeNow : Context) (hasClient : bool)
    o (l : loc) cm (originalActive : Env -> Context) :
  importedTriple (parseTraceparent traceparent) = Some (t, s, smp) ->
  locateContextManager o = Some l ->
  store o !! l = Some cm ->
  ToBoolean (cm_with cm) = true ->
  cm_active cm = Some originalActive ->
  exists init,
    createSentryPlugin traceparent activeNow hasClient o = Returned init
    /\ forall env, exists c,
         callActive (init_otel init) l env = Some c
         /\ getSpan c <> None
         /\ (c = originalActive env
             \/ rootContextOf (parseTraceparent traceparent) activeNow = Some c).
Proof.
  intros Htriple Hloc Hcm Hwith Hact.
  eexists. split; [eapply create_installs_triple; eassumption|].
  intros env. eexists. split.
  { unfold callActive. simpl. rewrite lookup_insert_eq. reflexivity. }
  split; [apply patchedActive_has_span; discriminate|].
  unfold patchedActive, rootContextOf. rewrite Htriple.
  destruct (getSpan (originalActive env)); [left|right]; reflexivity.
Qed.



End PatchFurther.

(** X4.  Whenever a root context is built, its span slot holds a
    non-recording span for the two identifiers of the header, both
    non-empty, marked remote, with trace flags 1 or 0 as the header is
    sampled or not; the span that was active at initialisation is replaced
    and the other values of that context are kept. *)
Theorem root_context_is_remote_parent (traceparent : option string)
    (activeNow root : Context) :
  rootContextOf (parseTraceparent traceparent) activeNow = Some root ->
  exists sc,
    getSpan root = Some (NonRecordingSpan sc)
    /\ parentTraceId (parseTraceparent traceparent) = Some (traceId sc)
    /\ parentSpanId (parseTraceparent traceparent) = Some (spanId sc)
    /\ traceId sc <> "" /\ spanId sc <> ""
    /\ isRemote sc = true
    /\ traceFlags sc
       = (if sampled (parseTraceparent traceparent)
          then TraceFlags_SAMPLED else TraceFlags_NONE)
    /\ ctx_values root = ctx_values activeNow.
Proof.
  unfold rootContextOf.
  destruct (importedTriple (parseTraceparent traceparent))
    as [[[t s] smp]|] eqn:Htriple; [|discriminate].
  intros [= <-].
  destruct (imported_ids_nonempty _ _ _ _ Htriple)
    as (Ht & Hs & Hsmp & Htne & Hsne).
  exists (remoteParentContext t s smp). simpl.
  rewrite Hsmp. repeat split; assumption.
Qed.

Lemma root_context_is_remote_parent_witness :
  exists root sc,
    rootContextOf (parseTraceparent (Some w3cExampleUnsampled)) sampleNested
    = Some root
    /\ getSpan root = Some (NonRecordingSpan sc)
    /\ traceId sc = "4bf92f3577b34da6a3ce929d0e0e4736"
    /\ traceFlags sc = 0%Z.
Proof.
  eexists.
  destruct (root_context_is_remote_parent (Some w3cExampleUnsampled)
              sampleNested _ eq_refl)
    as (sc & Hspan & Ht & _ & _ & _ & _ & Hflags & _).
  exists sc. split; [reflexivity|]. split; [exact Hspan|].
  split; [injection Ht as Ht; symmetry; exact Ht | exact Hflags].
Defined.

Lemma patched_active_always_has_span_witness :
  exists init c,
    createSentryPlugin (Some w3cExample) ROOT_CONTEXT true sampleOtel
    = Returned init
    /\ callActive (init_otel init) 1%positive ROOT_CONTEXT = Some c
    /\ getSpan c <> None.
Proof.
  destruct (patched_active_always_has_span (Some w3cExample)
              "4bf92f3577b34da6a3ce929d0e0e4736" "00f067aa0ba902b7" true
              ROOT_CONTEXT true sampleOtel 1%positive sampleManager
              (fun env => env))
    as (init & Hcreate & Hcalls);
    [reflexivity | reflexivity | apply lookup_singleton_eq
    | reflexivity | reflexivity |].
  destruct (Hcalls ROOT_CONTEXT) as (c & Hcall & Hspan & _).
  exists init, c. split; [exact Hcreate|]. split; assumption.
Defined.



(** ** Span relabelling, further *)

Lemma relabelledName_dec (span : SpanObj) :
  relabelledName span \/ ~ relabelledName span.
Proof.
  unfold relabelledName.
  destruct (decide (sp_name span = Some "ai.streamText.doStream")); [auto|].
  destruct (decide (sp_name span = Some "ai.generateText.doGenerate")); [auto|].
  right. intros [H|H]; contradiction.
Qed.

Lemma member_insert_eq (attrs : gmap string JsVal) (k : string) (v : JsVal) :
  member (<[k := v]> attrs) k = v.
Proof. unfold member. rewrite lookup_insert_eq. reflexivity. Qed.

Lemma onSpanStart_exposed (n : option string) (tb : gmap string JsVal) :
  relabelledName (MkSpanObj n tb true) ->
  onSpanStart (MkSpanObj n tb true)
  = MkSpanObj n
      (setIf "gen_ai.system"
         (jsOr (member tb "ai.model.provider") (member tb "gen_ai.system"))
         (setIf "gen_ai.request.model"
            (jsOr (member tb "ai.model.id") (member tb "gen_ai.request.model"))
            (<["sentry.op" := JStr "gen_ai.chat"]> tb))) true.
Proof.
  intros Hname. rewrite (onSpanStart_relabelled _ Hname). cbv zeta.
  unfold attributes, setAttribute, setIf. simpl.
  rewrite !member_insert_ne by discriminate.
  destruct (ToBoolean (jsOr (member tb "ai.model.id") _)),
    (ToBoolean (jsOr (member tb "ai.model.provider") _)); reflexivity.
Qed.

Lemma member_setIf_ne k k' v tb : k <> k' -> member (setIf k v tb) k' = member tb k'.
Proof. intros. unfold setIf. destruct (ToBoolean v); [apply member_insert_ne; done|done]. Qed.

Lemma member_setIf_jsOr k a tb :
  jsOr a (member (setIf k (jsOr a (member tb k)) tb) k) = jsOr a (member tb k).
Proof.
  unfold setIf, jsOr. destruct (ToBoolean a) eqn:Ha; [reflexivity|].
  destruct (ToBoolean (member tb k)) eqn:Hb; [|reflexivity].
  apply member_insert_eq.
Qed.

Lemma member_empty (k : string) : member ∅ k = JUndefined.
Proof. unfold member. rewrite lookup_empty. reflexivity. Qed.

Lemma onSpanStart_hidden (n : option string) (tb : gmap string JsVal) :
  relabelledName (MkSpanObj n tb false) ->
  onSpanStart (MkSpanObj n tb false)
  = MkSpanObj n (<["sentry.op" := JStr "gen_ai.chat"]> tb) false.
Proof.
  intros Hname. rewrite (onSpanStart_relabelled _ Hname). cbv zeta.
  unfold attributes, setAttribute. simpl.
  rewrite !member_empty. reflexivity.
Qed.

Lemma setIf_settled (model provider : JsVal) (tb : gmap string JsVal) :
  let result :=
    setIf "gen_ai.system" provider
      (setIf "gen_ai.request.model" model
         (<["sentry.op" := JStr "gen_ai.chat"]> tb)) in
  setIf "gen_ai.system" provider
    (setIf "gen_ai.request.model" model
       (<["sentry.op" := JStr "gen_ai.chat"]> result))
  = result.
Proof.
  cbv zeta. unfold setIf.
  destruct (ToBoolean model), (ToBoolean provider);
    apply map_eq; intros k;
    destruct (decide (k = "gen_ai.system")) as [Hsys|Hsys];
    destruct (decide (k = "gen_ai.request.model")) as [Hmodel|Hmodel];
    destruct (decide (k = "sentry.op")) as [Hop|Hop];
    try congruence; subst; simplify_map_eq; reflexivity.
Qed.

(** X8.  Relabelling is idempotent: a span that has been through the
    handler is left as it is by a second run of the handler. *)
Theorem relabel_twice_is_once (span : SpanObj) :
  onSpanStart (onSpanStart span) = onSpanStart span.
Proof.
  destruct (relabelledName_dec span) as [Hname|Hother].
  2:{ rewrite !(onSpanStart_other_name span Hother). reflexivity. }
  destruct span as [n tb [|]].
  - rewrite (onSpanStart_exposed n tb Hname).
    rewrite onSpanStart_exposed by exact Hname.
    f_equal.
    set (tb0 := <["sentry.op" := JStr "gen_ai.chat"]> tb).
    assert (member tb "gen_ai.request.model" = member tb0 "gen_ai.request.model")
      as Hm by (symmetry; apply member_insert_ne; discriminate).
    rewrite Hm.
    set (model := jsOr (member tb "ai.model.id") (member tb0 "gen_ai.request.model")).
    set (tb1 := setIf "gen_ai.request.model" model tb0).
    assert (member tb "gen_ai.system" = member tb1 "gen_ai.system") as Hp.
    { subst tb1 tb0. rewrite member_setIf_ne, member_insert_ne by discriminate.
      reflexivity. }
    rewrite Hp.
    set (provider := jsOr (member tb "ai.model.provider") (member tb1 "gen_ai.system")).
    set (tb2 := setIf "gen_ai.system" provider tb1).
    assert (member tb2 "ai.model.id" = member tb "ai.model.id") as ->.
    { subst tb2 tb1 tb0.
      rewrite !member_setIf_ne, member_insert_ne by discriminate. reflexivity. }
    assert (member tb2 "ai.model.provider" = member tb "ai.model.provider") as ->.
    { subst tb2 tb1 tb0.
      rewrite !member_setIf_ne, member_insert_ne by discriminate. reflexivity. }
    assert (member tb2 "gen_ai.request.model" = member tb1 "gen_ai.request.model") as ->.
    { subst tb2. rewrite member_setIf_ne by discriminate. reflexivity. }
    assert (jsOr (member tb "ai.model.id") (member tb1 "gen_ai.request.model") = model) as ->.
    { subst tb1 model. apply member_setIf_jsOr. }
    assert (jsOr (member tb "ai.model.provider") (member tb2 "gen_ai.system") = provider) as ->.
    { subst tb2 provider. apply member_setIf_jsOr. }
    subst tb2 tb1 tb0. apply setIf_settled.
  - rewrite (onSpanStart_hidden n tb Hname).
    rewrite onSpanStart_hidden by exact Hname.
    rewrite insert_insert_eq. reflexivity.
Qed.

(** X9.  The handler never removes an attribute and never changes the name
    of a span or whether it exposes its table. *)
Theorem relabel_removes_nothing (span : SpanObj) :
  sp_name (onSpanStart span) = sp_name span
  /\ sp_exposed (onSpanStart span) = sp_exposed span
  /\ forall k, is_Some (sp_table span !! k) ->
               is_Some (sp_table (onSpanStart span) !! k).
Proof.
  destruct (relabelledName_dec span) as [Hname|Hother].
  2:{ rewrite (onSpanStart_other_name span Hother). auto. }
  destruct span as [n tb [|]].
  - rewrite (onSpanStart_exposed n tb Hname). simpl.
    split; [reflexivity|]. split; [reflexivity|].
    intros k Hk. unfold setIf.
    destruct (ToBoolean (jsOr (member tb "ai.model.provider") _)),
      (ToBoolean (jsOr (member tb "ai.model.id") _));
      repeat (rewrite lookup_insert_is_Some'; right); exact Hk.
  - rewrite (onSpanStart_hidden n tb Hname). simpl.
    split; [reflexivity|]. split; [reflexivity|].
    intros k Hk. rewrite lookup_insert_is_Some'. right. exact Hk.
Qed.

(** X10.  A relabelled span that does not expose its attribute table gets
    the operation label and nothing else: model and provider are not copied,
    whatever the table holds. *)
Theorem relabel_hidden_table_only_labels (span : SpanObj) :
  relabelledName span -> sp_exposed span = false ->
  onSpanStart span = setAttribute "sentry.op" (JStr "gen_ai.chat") span.
Proof.
  intros Hname Hhidden. destruct span as [n tb ex]. simpl in Hhidden.
  subst ex. apply onSpanStart_hidden. exact Hname.
Qed.

Lemma relabel_hidden_table_only_labels_witness :
  sp_table spanHidden !! "ai.model.id" = Some (JStr "gpt-4")
  /\ sp_table (onSpanStart spanHidden) !! "sentry.op" = Some (JStr "gen_ai.chat")
  /\ sp_table (onSpanStart spanHidden) !! "gen_ai.request.model" = None.
Proof.
  rewrite (relabel_hidden_table_only_labels spanHidden);
    [|left; reflexivity | reflexivity].
  unfold spanHidden, setAttribute. simpl.
  split; [apply lookup_singleton_eq|].
  split; [apply lookup_insert_eq|].
  rewrite lookup_insert_ne by discriminate.
  apply lookup_singleton_ne. discriminate.
Defined.

(** ** Event Router, further *)

Lemma flush_flushed (timeout : N) (sdk : Sdk) :
  flush timeout sdk
  = (Returned (snd (flushWait timeout (sdk_drain sdk))), flushed sdk timeout).
Proof.
  unfold flush, flushed.
  destruct (flushWait timeout (sdk_drain sdk)) as [wait sent]. reflexivity.
Qed.

Lemma onEvent_created (event : Event) (sdk : Sdk) :
  ev_type event = "session.created" ->
  onEvent event sdk
  = (Returned tt,
     recorded sdk
       (AddBreadcrumb
          (sessionCreatedBreadcrumb (optMember (ev_properties event) "id")))).
Proof. intros Htype. unfold onEvent. rewrite Htype. reflexivity. Qed.

Lemma onEvent_idle (event : Event) (sdk : Sdk) :
  ev_type event = "session.idle" ->
  onEvent event sdk
  = (Returned tt, flushed (recorded sdk (AddBreadcrumb idleBreadcrumb)) 2000).
Proof.
  intros Htype. unfold onEvent. rewrite Htype. simpl.
  unfold bind, addBreadcrumb, record. rewrite flush_flushed. reflexivity.
Qed.

Lemma onEvent_other (event : Event) (sdk : Sdk) :
  ev_type event <> "session.created" ->
  ev_type event <> "session.error" ->
  ev_type event <> "session.idle" ->
  onEvent event sdk = (Returned tt, sdk).
Proof.
  intros Hc He Hi. unfold onEvent.
  apply String.eqb_neq in Hc, He, Hi. rewrite Hc, He, Hi. reflexivity.
Qed.

(** What reporting an error payload does, for either hook. *)
Lemma report_outcomes (error : JsVal) (tags : list (string * string))
    (sdk : Sdk) :
  let run := (if ToBoolean error
              then let! exn := asException error in captureException exn tags
              else ret tt) sdk in
  (ToBoolean error = false /\ run = (Returned tt, sdk))
  \/ (exists e, error = JError e
                /\ run = (Returned tt, recorded sdk (CaptureException error tags)))
  \/ (exists msg, ToBoolean error = true /\ instanceofError error = false
                  /\ String_ error = Some msg
                  /\ run = (Returned tt,
                            recorded sdk
                              (CaptureException (JError (newError msg)) tags)))
  \/ (ToBoolean error = true /\ instanceofError error = false
      /\ String_ error = None /\ run = (Threw TypeError, sdk)).
Proof.
  cbv zeta. destruct (ToBoolean error) eqn:Htruthy; [|left; auto].
  right. unfold asException.
  destruct (instanceofError error) eqn:Hinst.
  - left. destruct error; try discriminate Hinst. eexists. split; reflexivity.
  - right. destruct (String_ error) as [msg|] eqn:Hstr.
    + left. exists msg. repeat split; reflexivity.
    + right. repeat split; reflexivity.
Qed.

Lemma onEvent_error (event : Event) (sdk : Sdk) :
  ev_type event = "session.error" ->
  onEvent event sdk
  = (if ToBoolean (optMember (ev_properties event) "error")
     then let! exn := asException (optMember (ev_properties event) "error") in
          captureException exn [("source", "session.error")]
     else ret tt) sdk.
Proof. intros Htype. unfold onEvent. rewrite Htype. reflexivity. Qed.

Lemma event_kind (event : Event) :
  ev_type event = "session.created" \/ ev_type event = "session.error"
  \/ ev_type event = "session.idle"
  \/ (ev_type event <> "session.created" /\ ev_type event <> "session.error"
      /\ ev_type event <> "session.idle").
Proof.
  destruct (decide (ev_type event = "session.created")); [auto|].
  destruct (decide (ev_type event = "session.error")); [auto|].
  destruct (decide (ev_type event = "session.idle")); [auto|].
  right; right; right. auto.
Qed.

(** X11.  An event of any type other than the three the router handles
    makes no SDK call, takes no time and returns. *)
Theorem other_events_are_ignored (event : Event) (sdk : Sdk) :
  ev_type event <> "session.created" ->
  ev_type event <> "session.error" ->
  ev_type event <> "session.idle" ->
  onEvent event sdk = (Returned tt, sdk).
Proof. apply onEvent_other. Qed.

Lemma other_events_are_ignored_witness :
  onEvent {| ev_type := "session.updated"; ev_properties := None |} stuckSdk
  = (Returned tt, stuckSdk).
Proof.
  apply other_events_are_ignored; discriminate.
Defined.

(** X12.  A session-error event with no properties, no error member or a
    falsy error makes no SDK call.  A truthy error that is an exception is
    captured as it is, one that is not and converts to the string [msg] is
    captured as a new exception of message [msg]; in both cases there is
    exactly one capture, tagged source=session.error. *)
Theorem session_error_captured_when_truthy (event : Event) (sdk : Sdk) :
  ev_type event = "session.error" ->
  (ToBoolean (optMember (ev_properties event) "error") = false ->
   onEvent event sdk = (Returned tt, sdk))
  /\ (forall e, optMember (ev_properties event) "error" = JError e ->
      onEvent event sdk
      = (Returned tt,
         recorded sdk (CaptureException (JError e) [("source", "session.error")])))
  /\ (forall msg,
        ToBoolean (optMember (ev_properties event) "error") = true ->
        instanceofError (optMember (ev_properties event) "error") = false ->
        String_ (optMember (ev_properties event) "error") = Some msg ->
        onEvent event sdk
        = (Returned tt,
           recorded sdk (CaptureException (JError (newError msg))
                           [("source", "session.error")]))).
Proof.
  intros Htype. rewrite (onEvent_error event sdk Htype).
  set (error := optMember (ev_properties event) "error").
  split; [intros ->; reflexivity|].
  split.
  - intros e ->. reflexivity.
  - intros msg -> Hinst Hstr. unfold bind, asException.
    rewrite Hinst, Hstr. reflexivity.
Qed.

Lemma session_error_captured_when_truthy_witness :
  onEvent (errorEvent (JStr "boom")) stuckSdk
  = (Returned tt,
     recorded stuckSdk (CaptureException (JError (newError "boom"))
                          [("source", "session.error")])).
Proof.
  assert (optMember (ev_properties (errorEvent (JStr "boom"))) "error"
          = JStr "boom") as Herror.
  { unfold errorEvent, optMember, member. simpl.
    rewrite lookup_singleton_eq. reflexivity. }
  destruct (session_error_captured_when_truthy (errorEvent (JStr "boom"))
              stuckSdk eq_refl) as (_ & _ & Hwrap).
  apply Hwrap; rewrite Herror; reflexivity.
Defined.

(** X13.  Whatever the event or the tool result, every exception the two
    reporting hooks hand to the SDK is an instance of [Error], and the calls
    made before are kept. *)
Theorem hooks_capture_only_exceptions (event : Event) (input : ToolInput)
    (output : ToolOutput) (sdk : Sdk) :
  (exists added,
     sdk_calls (snd (onEvent event sdk)) = (sdk_calls sdk ++ added)%list
     /\ forall c exn, In c added -> capturedBy c = Some exn ->
                      instanceofError exn = true)
  /\ (exists added,
        sdk_calls (snd (toolExecuteAfter input output sdk))
        = (sdk_calls sdk ++ added)%list
        /\ forall c exn, In c added -> capturedBy c = Some exn ->
                         instanceofError exn = true).
Proof.
  assert (forall error tags,
            exists added,
              sdk_calls
                (snd ((if ToBoolean error
                       then let! exn := asException error in
                            captureException exn tags
                       else ret tt) sdk))
              = (sdk_calls sdk ++ added)%list
              /\ forall c exn, In c added -> capturedBy c = Some exn ->
                               instanceofError exn = true) as Hreport.
  { intros error tags.
    destruct (report_outcomes error tags sdk)
      as [(_ & ->) | [(e & -> & ->) | [(msg & _ & _ & _ & ->) | (_ & _ & _ & ->)]]].
    - exists []. simpl. rewrite app_nil_r. split; [reflexivity|]. intros ? ? [].
    - eexists. split; [reflexivity|].
      intros c exn [<-|[]] [= <-]. reflexivity.
    - eexists. split; [reflexivity|].
      intros c exn [<-|[]] [= <-]. reflexivity.
    - exists []. simpl. rewrite app_nil_r. split; [reflexivity|]. intros ? ? []. }
  split; [|apply Hreport].
  destruct (event_kind event) as [Hc | [He | [Hi | (Hc & He & Hi)]]].
  - rewrite (onEvent_created event sdk Hc). eexists. split; [reflexivity|].
    intros c exn [<-|[]] Hcap. discriminate Hcap.
  - rewrite (onEvent_error event sdk He). apply Hreport.
  - rewrite (onEvent_idle event sdk Hi). simpl.
    exists [AddBreadcrumb idleBreadcrumb; Flush 2000].
    split; [rewrite <- app_assoc; reflexivity|].
    intros c exn [<-|[<-|[]]] Hcap; discriminate Hcap.
  - rewrite (onEvent_other event sdk Hc He Hi).
    exists []. simpl. rewrite app_nil_r. split; [reflexivity|]. intros ? ? [].
Qed.

(** X14.  Every event is handled with at most two SDK calls, appended to
    those made before, and within 2000 ms.  Only a session-idle event
    flushes or takes any time at all. *)
Theorem event_handling_is_bounded (event : Event) (sdk : Sdk) :
  exists added,
    sdk_calls (snd (onEvent event sdk)) = (sdk_calls sdk ++ added)%list
    /\ (List.length added <= 2)%nat
    /\ (sdk_now sdk <= sdk_now (snd (onEvent event sdk)) <= sdk_now sdk + 2000)%N
    /\ (ev_type event <> "session.idle" ->
        sdk_now (snd (onEvent event sdk)) = sdk_now sdk
        /\ sdk_drain (snd (onEvent event sdk)) = sdk_drain sdk
        /\ forall timeout, ~ In (Flush timeout) added).
Proof.
  destruct (event_kind event) as [Hc | [He | [Hi | (Hc & He & Hi)]]].
  - rewrite (onEvent_created event sdk Hc). simpl. eexists.
    split; [reflexivity|]. simpl. split; [lia|]. split; [lia|].
    intros _. repeat split. intros timeout [Hin|[]]. discriminate Hin.
  - rewrite (onEvent_error event sdk He).
    destruct (report_outcomes (optMember (ev_properties event) "error")
                [("source", "session.error")] sdk)
      as [(_ & ->) | [(e & _ & ->) | [(msg & _ & _ & _ & ->) | (_ & _ & _ & ->)]]];
      simpl.
    + exists []. rewrite app_nil_r. simpl. split; [reflexivity|].
      split; [lia|]. split; [lia|]. intros _. repeat split. intros ? [].
    + eexists. split; [reflexivity|]. simpl. split; [lia|]. split; [lia|].
      intros _. repeat split. intros timeout [Hin|[]]. discriminate Hin.
    + eexists. split; [reflexivity|]. simpl. split; [lia|]. split; [lia|].
      intros _. repeat split. intros timeout [Hin|[]]. discriminate Hin.
    + exists []. rewrite app_nil_r. simpl. split; [reflexivity|].
      split; [lia|]. split; [lia|]. intros _. repeat split. intros ? [].
  - rewrite (onEvent_idle event sdk Hi). simpl.
    exists [AddBreadcrumb idleBreadcrumb; Flush 2000].
    split; [rewrite <- app_assoc; reflexivity|]. simpl. split; [lia|].
    pose proof (flushWait_bounded 2000 (sdk_drain sdk)) as Hbound.
    split; [lia|]. intros Hne. contradiction.
  - rewrite (onEvent_other event sdk Hc He Hi). simpl.
    exists []. rewrite app_nil_r. simpl. split; [reflexivity|].
    split; [lia|]. split; [lia|]. intros _. repeat split. intros ? [].
Qed.

(** X15.  The reporting hooks throw in one case only: the error payload is
    truthy, is not an exception, and cannot be converted to a string.  The
    SDK has then not been called. *)
Theorem hooks_throw_only_on_unprintable_error (event : Event)
    (input : ToolInput) (output : ToolOutput) (sdk : Sdk) :
  (fst (onEvent event sdk) = Threw TypeError
   <-> ev_type event = "session.error"
       /\ ToBoolean (optMember (ev_properties event) "error") = true
       /\ instanceofError (optMember (ev_properties event) "error") = false
       /\ String_ (optMember (ev_properties event) "error") = None)
  /\ (fst (toolExecuteAfter input output sdk) = Threw TypeError
      <-> ToBoolean (optMember (metadata output) "error") = true
          /\ instanceofError (optMember (metadata output) "error") = false
          /\ String_ (optMember (metadata output) "error") = None)
  /\ (fst (onEvent event sdk) = Threw TypeError -> snd (onEvent event sdk) = sdk)
  /\ (fst (toolExecuteAfter input output sdk) = Threw TypeError ->
      snd (toolExecuteAfter input output sdk) = sdk).
Proof.
  assert (forall error tags,
            let run := (if ToBoolean error
                        then let! exn := asException error in
                             captureException exn tags
                        else ret tt) sdk in
            (fst run = Threw TypeError
             <-> ToBoolean error = true /\ instanceofError error = false
                 /\ String_ error = None)
            /\ (fst run = Threw TypeError -> snd run = sdk)) as Hreport.
  { intros error tags. cbv zeta.
    destruct (report_outcomes error tags sdk)
      as [(Hf & ->) | [(e & -> & ->) | [(msg & Ht & Hi & Hs & ->) | (Ht & Hi & Hs & ->)]]];
      simpl.
    - split; [|discriminate]. split; [discriminate|]. intros (Ht & _). congruence.
    - split; [|discriminate]. split; [discriminate|]. intros (_ & Hi & _).
      discriminate Hi.
    - split; [|discriminate]. split; [discriminate|]. intros (_ & _ & Hn).
      congruence.
    - split; [|reflexivity]. split; auto. }
  assert ((fst (onEvent event sdk) = Threw TypeError
           <-> ev_type event = "session.error"
               /\ ToBoolean (optMember (ev_properties event) "error") = true
               /\ instanceofError (optMember (ev_properties event) "error") = false
               /\ String_ (optMember (ev_properties event) "error") = None)
          /\ (fst (onEvent event sdk) = Threw TypeError ->
              snd (onEvent event sdk) = sdk)) as [Hev Hev'].
  { destruct (event_kind event) as [Hc | [He | [Hi | (Hc & He & Hi)]]].
    - rewrite (onEvent_created event sdk Hc). simpl.
      split; [|discriminate]. split; [discriminate|].
      intros (He & _). rewrite Hc in He. discriminate He.
    - rewrite (onEvent_error event sdk He).
      destruct (Hreport (optMember (ev_properties event) "error")
                  [("source", "session.error")]) as [Hiff Hsame].
      split; [|exact Hsame]. rewrite Hiff. tauto.
    - rewrite (onEvent_idle event sdk Hi). simpl.
      split; [|discriminate]. split; [discriminate|].
      intros (He & _). rewrite Hi in He. discriminate He.
    - rewrite (onEvent_other event sdk Hc He Hi). simpl.
      split; [|discriminate]. split; [discriminate|].
      intros (He' & _). contradiction. }
  destruct (Hreport (optMember (metadata output) "error")
              [("source", "tool.execute"); ("tool", tool input)])
    as [Htool Htool'].
  split; [exact Hev|]. split; [exact Htool|]. split; [exact Hev'|exact Htool'].
Qed.

Lemma hooks_throw_only_on_unprintable_error_witness :
  onEvent (errorEvent unprintable) stuckSdk = (Threw TypeError, stuckSdk).
Proof.
  assert (optMember (ev_properties (errorEvent unprintable)) "error"
          = unprintable) as Herror.
  { unfold errorEvent, optMember, member. simpl.
    rewrite lookup_singleton_eq. reflexivity. }
  destruct (hooks_throw_only_on_unprintable_error (errorEvent unprintable)
              {| tool := "bash" |} outputBoom stuckSdk)
    as (Hiff & _ & Hsame & _).
  assert (fst (onEvent (errorEvent unprintable) stuckSdk) = Threw TypeError)
    as Hthrow.
  { apply Hiff. rewrite Herror. repeat split. }
  specialize (Hsame Hthrow).
  destruct (onEvent (errorEvent unprintable) stuckSdk) as [result sdk'].
  simpl in *. subst. reflexivity.
Defined.

(** X16.  A session-created event always records exactly one breadcrumb and
    nothing else, and returns; when the event has no properties or no [id],
    the breadcrumb carries [undefined] as its session id. *)
Theorem session_created_records_one_breadcrumb (event : Event) (sdk : Sdk) :
  ev_type event = "session.created" ->
  exists sessionId,
    onEvent event sdk
    = (Returned tt, recorded sdk (AddBreadcrumb (sessionCreatedBreadcrumb sessionId)))
    /\ (forall props v, ev_properties event = Some props ->
                        props !! "id" = Some v -> sessionId = v)
    /\ ((ev_properties event = None
         \/ exists props, ev_properties event = Some props /\ props !! "id" = None) ->
        sessionId = JUndefined).
Proof.
  intros Htype. exists (optMember (ev_properties event) "id").
  split; [apply onEvent_created; exact Htype|].
  unfold optMember, member. split.
  - intros props v -> ->. reflexivity.
  - intros [-> | (props & -> & ->)]; reflexivity.
Qed.

Lemma session_created_records_one_breadcrumb_witness :
  onEvent {| ev_type := "session.created"; ev_properties := None |} stuckSdk
  = (Returned tt,
     recorded stuckSdk (AddBreadcrumb (sessionCreatedBreadcrumb JUndefined))).
Proof.
  destruct (session_created_records_one_breadcrumb
              {| ev_type := "session.created"; ev_properties := None |}
              stuckSdk eq_refl) as (sessionId & Hrun & _ & Hmissing).
  rewrite Hrun, Hmissing; [reflexivity|]. left. reflexivity.
Defined.

(** ** The plugin function *)

(** X18.  The plugin function sets the context named opencode first and
    exactly once, and sets the tag project exactly when the project has a
    non-empty id; nothing else is set. *)
Theorem plugin_tags_project_when_known (input : PluginInput) :
  (exists data rest,
     pluginSetup input = SetContext "opencode" data :: rest
     /\ forall name data', ~ In (SetContext name data') rest)
  /\ (forall key value,
        In (SetTag key value) (pluginSetup input)
        <-> key = "project" /\ value <> ""
            /\ project input = Some {| project_id := value |})
  /\ (List.length (pluginSetup input) <= 2)%nat.
Proof.
  unfold pluginSetup, projectId.
  destruct (project input) as [[pid]|]; simpl.
  - destruct (nonempty pid) eqn:Hpid; simpl.
    + split.
      { eexists. eexists. split; [reflexivity|].
        intros name data' [Hin|[]]. discriminate Hin. }
      split; [|lia].
      intros key value. split.
      * intros [Hin|[Hin|[]]]; [discriminate Hin|].
        injection Hin as <- <-. apply nonempty_true in Hpid. auto.
      * intros (-> & _ & [= ->]). right. left. reflexivity.
    + split.
      { eexists. eexists. split; [reflexivity|]. intros name data' []. }
      split; [|lia].
      intros key value. split.
      * intros [Hin|[]]. discriminate Hin.
      * intros (_ & Hne & [= ->]). apply nonempty_false in Hpid. contradiction.
  - split.
    { eexists. eexists. split; [reflexivity|]. intros name data' []. }
    split; [|lia].
    intros key value. split.
    + intros [Hin|[]]. discriminate Hin.
    + intros (_ & _ & Hsome). discriminate Hsome.
Qed.

(** ** Configuration *)

Section ConfigurationProperties.

Context {Num : Type} (parseFloat : string -> Num).
Implicit Types (options : SentryPluginOptions Num) (env : gmap string string).

(** X19.  A member given in the options is what [Sentry.init] receives,
    whatever the environment holds, also when it is the empty string. *)
Theorem explicit_options_win options env :
  (forall v, dsn options = Some v ->
             cfg_dsn (resolveOptions parseFloat options env) = Some v)
  /\ (forall v, environment options = Some v ->
                cfg_environment (resolveOptions parseFloat options env) = v)
  /\ (forall v, release options = Some v ->
                cfg_release (resolveOptions parseFloat options env) = v)
  /\ (forall v, tracesSampleRate options = Some v ->
                cfg_tracesSampleRate (resolveOptions parseFloat options env) = v)
  /\ (forall v, debug options = Some v ->
                cfg_debug (resolveOptions parseFloat options env) = v)
  /\ (forall v, recordInputs options = Some v ->
                cfg_recordInputs (resolveOptions parseFloat options env) = v)
  /\ (forall v, recordOutputs options = Some v ->
                cfg_recordOutputs (resolveOptions parseFloat options env) = v).
Proof.
  unfold resolveOptions. simpl.
  repeat split; intros v ->; reflexivity.
Qed.

(** X20.  Without options, each setting comes from its environment
    variable when that is set, the empty string included, and has its
    default otherwise: development, opencode@local, the number parsed
    from 1.0, no debugging; debugging is on only for the exact value
    true. *)
Theorem environment_then_defaults env :
  cfg_dsn (resolveOptions parseFloat noOptions env) = env !! "SENTRY_DSN"
  /\ cfg_environment (resolveOptions parseFloat noOptions env)
     = default "development" (env !! "SENTRY_ENVIRONMENT")
  /\ cfg_release (resolveOptions parseFloat noOptions env)
     = default "opencode@local" (env !! "SENTRY_RELEASE")
  /\ cfg_tracesSampleRate (resolveOptions parseFloat noOptions env)
     = parseFloat (default "1.0" (env !! "SENTRY_TRACES_SAMPLE_RATE"))
  /\ (cfg_debug (resolveOptions parseFloat noOptions env) = true
      <-> env !! "SENTRY_DEBUG" = Some "true")
  /\ cfg_recordInputs (resolveOptions parseFloat noOptions env) = true
  /\ cfg_recordOutputs (resolveOptions parseFloat noOptions env) = true.
Proof.
  unfold resolveOptions. simpl.
  repeat split; try reflexivity.
  - destruct (env !! "SENTRY_DEBUG") as [text|]; [|discriminate].
    intros Heq. apply String.eqb_eq in Heq. subst text. reflexivity.
  - intros ->. reflexivity.
Qed.

(** X21.  Telemetry is enabled exactly when the resolved DSN is a
    non-empty string.  With no DSN in the options it is enabled exactly
    when SENTRY_DSN is set and non-empty; an empty DSN in the options
    disables it even when SENTRY_DSN is set. *)
Theorem enabled_iff_dsn_nonempty options env :
  (cfg_enabled (resolveOptions parseFloat options env) = true
   <-> exists v, cfg_dsn (resolveOptions parseFloat options env) = Some v
                 /\ v <> "")
  /\ (dsn options = None ->
      (cfg_enabled (resolveOptions parseFloat options env) = true
       <-> exists v, env !! "SENTRY_DSN" = Some v /\ v <> ""))
  /\ (dsn options = Some "" ->
      cfg_enabled (resolveOptions parseFloat options env) = false).
Proof.
  assert (forall o : option string,
            truthyStr o = true <-> exists v, o = Some v /\ v <> "") as Htruthy.
  { intros [v|]; simpl.
    - rewrite nonempty_true. split.
      + intros Hne. exists v. auto.
      + intros (v' & [= <-] & Hne). exact Hne.
    - split; [discriminate|]. intros (v & Hv & _). discriminate Hv. }
  unfold resolveOptions. simpl.
  split; [apply Htruthy|]. split.
  - intros ->. simpl. apply Htruthy.
  - intros ->. reflexivity.
Qed.

End ConfigurationProperties.

Lemma environment_then_defaults_witness :
  cfg_environment (resolveOptions (fun text => text) noOptions sampleEnv) = ""
  /\ cfg_release (resolveOptions (fun text => text) noOptions sampleEnv)
     = "opencode@local"
  /\ cfg_debug (resolveOptions (fun text => text) noOptions sampleEnv) <> true.
Proof.
  destruct (environment_then_defaults (fun text => text) sampleEnv)
    as (_ & Henv & Hrel & _ & Hdebug & _).
  split; [rewrite Henv; vm_compute; reflexivity|].
  split; [rewrite Hrel; vm_compute; reflexivity|].
  intros Hon. apply Hdebug in Hon. vm_compute in Hon. discriminate Hon.
Defined.

Lemma explicit_options_win_witness :
  cfg_environment
    (resolveOptions (fun text => text)
       {| dsn := Some ""; environment := Some "staging"; release := None;
          tracesSampleRate := None; debug := None;
          recordInputs := None; recordOutputs := None |} sampleEnv)
  = "staging".
Proof.
  destruct (explicit_options_win (fun text => text)
              {| dsn := Some ""; environment := Some "staging"; release := None;
                 tracesSampleRate := None; debug := None;
                 recordInputs := None; recordOutputs := None |} sampleEnv)
    as (_ & Henv & _).
  apply Henv. reflexivity.
Defined.

Lemma enabled_iff_dsn_nonempty_witness :
  sampleEnv !! "SENTRY_DSN" = Some "https://key@example.invalid/1"
  /\ cfg_enabled
       (resolveOptions (fun text => text)
          {| dsn := Some ""; environment := None; release := None;
             tracesSampleRate := None; debug := None;
             recordInputs := None; recordOutputs := None |} sampleEnv)
     = false.
Proof.
  split; [vm_compute; reflexivity|].
  destruct (enabled_iff_dsn_nonempty (fun text => text)
              {| dsn := Some ""; environment := None; release := None;
                 tracesSampleRate := None; debug := None;
                 recordInputs := None; recordOutputs := None |} sampleEnv)
    as (_ & _ & Hempty).
  apply Hempty. reflexivity.
Defined.
